(** * LIS3DH acquisition firmware (AY1920_II_HW_05_PROJ_3, main.c)

    A shallow embedding of [main.c]: the start-up configuration of the
    accelerometer over I2C, the timer/data-ready gated acquisition loop, the
    conversion of the raw register pairs and the 14-byte telemetry frame.

    Integers of the C program are modelled as [Z] with their wrap-around
    written out; the [uint8_t] arrays are lists of [Z] updated by index; the
    bus and the UART are an explicit world threaded through a state monad. *)

From Stdlib Require Import ZArith Lia Bool String Ascii.
From stdpp Require Import base list.

Local Open Scope Z_scope.

(** ** Register map and constants (main.c, lines 21-99) *)

Definition LIS3DH_DEVICE_ADDRESS : Z := 0x18.
Definition LIS3DH_WHO_AM_I_REG_ADDR : Z := 0x0F.
Definition LIS3DH_STATUS_REG : Z := 0x27.
Definition LIS3DH_STATUS_REG_NEW_VALUES : Z := 0x07.
Definition LIS3DH_CTRL_REG1 : Z := 0x20.
Definition LIS3DH_50Hz_NORMAL_MODE_CTRL_REG1 : Z := 0x47.
Definition LIS3DH_100Hz_CTRL_REG1 : Z := 0x57.
Definition LIS3DH_TEMP_CFG_REG : Z := 0x1F.
Definition LIS3DH_TEMP_CFG_REG_ACTIVE : Z := 0xC0.
Definition LIS3DH_TEMP_CFG_REG_NOT_ACTIVE : Z := 0x00.
Definition LIS3DH_CTRL_REG4 : Z := 0x23.
Definition LIS3DH_CTRL_REG4_2G_NORMAL : Z := 0x00.
Definition LIS3DH_CTRL_REG4_4G_HIGH : Z := 0x18.
Definition LIS3DH_OUT_ADC_3L : Z := 0x0C.
Definition LIS3DH_OUT_ADC_3H : Z := 0x0D.
Definition LIS3DH_OUT_X_L : Z := 0x28.
Definition LIS3DH_OUT_Y_L : Z := 0x2A.
Definition LIS3DH_OUT_Z_L : Z := 0x2C.
Definition LIS3DH_OUT_X_H : Z := 0x29.
Definition LIS3DH_OUT_Y_H : Z := 0x2B.
Definition LIS3DH_OUT_Z_H : Z := 0x2D.

(** Sensitivity levels in mg/digit, as the source defines them. *)
Definition LIS3DH_SENS_2G : Z := 4.
Definition LIS3DH_SENS_4G : Z := 2.

(** ** C integer conversions *)

(** [(uint8_t) z]: reduction modulo 2^8. *)
Definition to_uint8 (z : Z) : Z := z mod 256.

(** [(int16) z]: two's complement wrap-around to 16 bits. *)
Definition to_int16 (z : Z) : Z := (z + 32768) mod 65536 - 32768.

(** [(int32) z]: two's complement wrap-around to 32 bits. *)
Definition to_int32 (z : Z) : Z := (z + 2147483648) mod 4294967296 - 2147483648.

Definition is_int32 (z : Z) : Prop := -2147483648 <= z < 2147483648.

(** ** Binary floating point, as far as the conversion needs it

    A finite floating-point number is [mant * 2^expo].  [round_ratio prec n d]
    is the number of precision [prec] nearest to the rational [n/d], ties to
    even: the rounding of IEEE-754 binary64 ([prec = 53]) and binary32
    ([prec = 24]) in the normal range, which is the only range the conversion
    of a 16-bit sample reaches. *)
Module IEEE.

Record binfloat : Type := BF { mant : Z; expo : Z }.

(** Nearest integer to [n/d] for [0 <= n], [0 < d], ties to even. *)
Definition round_half_even (n d : Z) : Z :=
  let q := n / d in
  let r := n mod d in
  if 2 * r <? d then q
  else if d <? 2 * r then q + 1
  else if Z.even q then q else q + 1.

(** [floor (log2 (n/d))] for [0 < n], [0 < d]. *)
Definition ilog2_ratio (n d : Z) : Z :=
  let k := Z.log2 n - Z.log2 d in
  if 0 <=? k
  then (if d * 2 ^ k <=? n then k else k - 1)
  else (if d <=? n * 2 ^ (- k) then k else k - 1).

Definition round_ratio (prec : Z) (n d : Z) : binfloat :=
  if n =? 0 then BF 0 0
  else
    let a := Z.abs n in
    let e := ilog2_ratio a d - (prec - 1) in
    let m := if 0 <=? e then round_half_even a (d * 2 ^ e)
             else round_half_even (a * 2 ^ (- e)) d in
    BF (Z.sgn n * m) e.

(** Rounding of a floating-point value to a precision. *)
Definition round_to (prec : Z) (x : binfloat) : binfloat :=
  if 0 <=? expo x then round_ratio prec (mant x * 2 ^ expo x) 1
  else round_ratio prec (mant x) (2 ^ (- expo x)).

(** Conversion of an integer to [double]: exact below 2^53. *)
Definition double_of_int (n : Z) : binfloat := round_ratio 53 n 1.

(** Multiplication of two [double]s: the exact product, rounded. *)
Definition double_mul (x y : binfloat) : binfloat :=
  round_to 53 (BF (mant x * mant y) (expo x + expo y)).

(** Conversion of a [double] to [float32]. *)
Definition single_of_double (x : binfloat) : binfloat := round_to 24 x.

(** Conversion of a floating-point value to an integer: the fractional part
    is discarded (truncation toward zero). *)
Definition int_of_float (x : binfloat) : Z :=
  if 0 <=? expo x then mant x * 2 ^ expo x
  else Z.quot (mant x) (2 ^ (- expo x)).

End IEEE.

(** Conversion factor to m/s^2: the literal [9.80665], a [double] (line 99). *)
Definition G_TO_ACC : IEEE.binfloat := IEEE.round_ratio 53 980665 100000.

(** ** Sample converter (main.c, lines 362-365, repeated for Y and Z) *)

(** Line 362: the two bytes of the burst read are combined, reinterpreted as
    [int16], shifted right by 4 and stored in the [int16_t] [OutTemp].
    [AccelerometerData] is the pair of the bytes at index 0 and at index 1. *)
Definition raw_sample (AccelerometerData : Z * Z) : Z :=
  let '(d0, d1) := AccelerometerData in
  to_int16 (Z.shiftr (to_int16 (Z.lor d1 (Z.shiftl d0 8))) 4).

(** Lines 363-365: sensitivity, conversion to mm/s^2 in floating point, and
    the cast to [int32]. *)
Definition physical_sample (OutTemp : Z) : Z :=
  let OutTemp := to_int16 (OutTemp * LIS3DH_SENS_4G) in
  let OutTempHR_float :=
    IEEE.single_of_double (IEEE.double_mul (IEEE.double_of_int OutTemp) G_TO_ACC) in
  let OutTempHR_int := IEEE.int_of_float OutTempHR_float in
  OutTempHR_int.

(** The decoding the specification describes, for comparison with
    [raw_sample]: [sign_extend ((high << 8) | low) >> 4]. *)
Definition spec_raw_sample (low high : Z) : Z :=
  Z.shiftr (to_int16 (Z.lor (Z.shiftl high 8) low)) 4.

(** The conversion the specification describes: the exact product with the
    sensitivity and 9.80665 = 980665/100000, truncated toward zero. *)
Definition spec_physical_sample (sensitivity raw_shifted : Z) : Z :=
  Z.quot (raw_shifted * sensitivity * 980665) 100000.

(** ** Frame packer (main.c, lines 367-370, 388-391, 407-410) *)

(** The four stores of one axis, least significant byte first, at the byte
    offsets [off .. off+3] of the frame. *)
Definition store_sample (off : nat) (OutTempHR_int : Z) (OutArrayHR : list Z) : list Z :=
  let OutArrayHR := <[off := to_uint8 (Z.land OutTempHR_int 0xFF)]> OutArrayHR in
  let OutArrayHR := <[S off := to_uint8 (Z.land (Z.shiftr OutTempHR_int 8) 0xFF)]> OutArrayHR in
  let OutArrayHR := <[S (S off) := to_uint8 (Z.land (Z.shiftr OutTempHR_int 16) 0xFF)]> OutArrayHR in
  let OutArrayHR := <[S (S (S off)) := to_uint8 (Z.shiftr OutTempHR_int 24)]> OutArrayHR in
  OutArrayHR.

(** Reading a frame back, as the wire format table describes it: the four
    bytes at [off .. off+3] as a little-endian signed 32-bit integer. *)
Definition spec_unpack_le32 (off : nat) (frame : list Z) : Z :=
  let b i := default 0 (frame !! (off + i)%nat) in
  to_int32 (b 0%nat + b 1%nat * 2 ^ 8 + b 2%nat * 2 ^ 16 + b 3%nat * 2 ^ 24).

Definition spec_unpack_frame (frame : list Z) : Z * Z * Z :=
  (spec_unpack_le32 1 frame, spec_unpack_le32 5 frame, spec_unpack_le32 9 frame).

(** ** Bus, UART and timer: the world the firmware runs in *)

(** Modelled from the spec: the [ErrorCode] type comes from a header that is
    not among the sources; the program only compares results with
    [NO_ERROR].  The two failure reasons are those of the error taxonomy. *)
Inductive ErrorCode : Type := NO_ERROR | NoAckError | BusError.

#[global] Instance ErrorCode_eq_dec : EqDecision ErrorCode.
Proof. solve_decision. Defined.

(** What the firmware does to the outside, in program order. *)
Inductive Event : Type :=
| IsDeviceConnected (device_address : Z)
| ReadRegister (device_address register_address : Z)
| ReadRegisterMulti (device_address register_address register_count : Z)
| WriteRegister (device_address register_address value : Z)
| PutString (message : string)
| PutArray (bytes : list Z).

(** The bus as the firmware sees it.  The outcome of a register transaction
    may depend on its position [k] in the sequence of register transactions
    and on the request; a read yields the result together with the content of
    the caller's buffer after the call. *)
Record Bus : Type := mkBus {
  probe : Z -> bool;
  read_outcome : nat -> Z -> Z -> ErrorCode * Z;
  burst_outcome : nat -> Z -> Z -> ErrorCode * (Z * Z);
  write_outcome : nat -> Z -> Z -> Z -> ErrorCode
}.

Record World : Type := mkWorld {
  bus : Bus;
  issued : nat;            (* register transactions issued so far *)
  trace : list Event;      (* everything done so far, oldest first *)
  Timer_ISR_start : Z      (* flag shared with the timer interrupt *)
}.

Definition M (A : Type) : Type := World -> A * World.

#[global] Instance M_ret : MRet M := fun A a w => (a, w).

#[global] Instance M_bind : MBind M :=
  fun A B k c w => let '(a, w') := c w in k a w'.

Definition emit (e : Event) (w : World) : World :=
  mkWorld (bus w) (issued w) (trace w ++ [e]) (Timer_ISR_start w).

Definition transact (e : Event) (w : World) : World :=
  mkWorld (bus w) (S (issued w)) (trace w ++ [e]) (Timer_ISR_start w).

(** Modelled from the spec: the bus transaction layer (I2C_Interface.c) is
    not among the sources.  An address-only probe returning presence. *)
Definition I2C_Peripheral_IsDeviceConnected (device_address : Z) : M bool :=
  fun w => (probe (bus w) device_address, emit (IsDeviceConnected device_address) w).

(** Modelled from the spec: single register read; the byte returned is the
    content of [*data] after the call. *)
Definition I2C_Peripheral_ReadRegister (device_address register_address : Z)
  : M (ErrorCode * Z) :=
  fun w => (read_outcome (bus w) (issued w) device_address register_address,
            transact (ReadRegister device_address register_address) w).

(** Modelled from the spec: burst read of consecutive registers in ascending
    address order; the firmware always asks for two, so the buffer is the pair
    of [data[0]] and [data[1]]. *)
Definition I2C_Peripheral_ReadRegisterMulti
  (device_address register_address register_count : Z) : M (ErrorCode * (Z * Z)) :=
  fun w => (burst_outcome (bus w) (issued w) device_address register_address,
            transact (ReadRegisterMulti device_address register_address register_count) w).

(** Modelled from the spec: single register write. *)
Definition I2C_Peripheral_WriteRegister (device_address register_address value : Z)
  : M ErrorCode :=
  fun w => (write_outcome (bus w) (issued w) device_address register_address value,
            transact (WriteRegister device_address register_address value) w).

(** Modelled from the spec: the serial transport is an external collaborator;
    it receives the string. *)
Definition UART_Debug_PutString (message : string) : M unit :=
  fun w => (tt, emit (PutString message) w).

(** Modelled from the spec: the serial transport receives the first
    [byteCount] bytes of the array. *)
Definition UART_Debug_PutArray (array : list Z) (byteCount : nat) : M unit :=
  fun w => (tt, emit (PutArray (take byteCount array)) w).

(** Modelled from the spec: the timer interrupt handler (InterruptRoutines.c)
    is not among the sources; its only action is to set the flag. *)
Definition Custom_Timer_ISR : M unit :=
  fun w => (tt, mkWorld (bus w) (issued w) (trace w) 1).

Definition get_Timer_ISR_start : M Z := fun w => (Timer_ISR_start w, w).

Definition set_Timer_ISR_start (v : Z) : M unit :=
  fun w => (tt, mkWorld (bus w) (issued w) (trace w) v).

(** ** Formatting of the diagnostic lines *)

Definition CRLF : string :=
  String (ascii_of_nat 13) (String (ascii_of_nat 10) EmptyString).

Definition hex_digit (d : Z) : ascii :=
  match String.get (Z.to_nat d) "0123456789ABCDEF" with
  | Some c => c
  | None => "?"%char
  end.

(** [%02X] of a value below 256. *)
Definition fmt_02X (v : Z) : string :=
  String (hex_digit (v / 16 mod 16)) (String (hex_digit (v mod 16)) EmptyString).

(** [sprintf] with one [%02X] in the format, then the line end. *)
Definition sprintf_02X (before : string) (v : Z) (after : string) : string :=
  (before ++ fmt_02X v ++ after ++ CRLF)%string.

Definition line (s : string) : string := (s ++ CRLF)%string.

(** ** Start-up (main.c, lines 117-307) *)

Fixpoint for_each (indices : list nat) (body : Z -> M unit) : M unit :=
  match indices with
  | [] => mret tt
  | i :: rest => body (Z.of_nat i) ;; for_each rest body
  end.

(** Lines 118-127. *)
Definition scan_bus : M unit :=
  for_each (seq 0 128) (fun i =>
    connected ← I2C_Peripheral_IsDeviceConnected i;
    if (connected : bool)
    then UART_Debug_PutString (sprintf_02X "Device 0x" i " is connected")
    else mret tt).

(** Lines 133-146. *)
Definition read_who_am_i : M unit :=
  '(error, who_am_i_reg) ←
     I2C_Peripheral_ReadRegister LIS3DH_DEVICE_ADDRESS LIS3DH_WHO_AM_I_REG_ADDR;
  if decide (error = NO_ERROR)
  then UART_Debug_PutString (sprintf_02X "WHO AM I REG: 0x" who_am_i_reg " [Expected: 0x33]")
  else UART_Debug_PutString (line "Error occurred during I2C comm").

(** Lines 148-163. *)
Definition read_status_register : M unit :=
  '(error, status_register) ←
     I2C_Peripheral_ReadRegister LIS3DH_DEVICE_ADDRESS LIS3DH_STATUS_REG;
  if decide (error = NO_ERROR)
  then UART_Debug_PutString (sprintf_02X "STATUS REGISTER: 0x" status_register "")
  else UART_Debug_PutString (line "Error occurred during I2C comm to read status register").

(** Lines 165-225: control register 1 is read, written when it differs from
    the 100 Hz value, and read again. *)
Definition setup_ctrl_reg1 : M unit :=
  '(error, ctrl_reg1) ←
     I2C_Peripheral_ReadRegister LIS3DH_DEVICE_ADDRESS LIS3DH_CTRL_REG1;
  (if decide (error = NO_ERROR)
   then UART_Debug_PutString (sprintf_02X "CONTROL REGISTER 1: 0x" ctrl_reg1 "")
   else UART_Debug_PutString
          (line "Error occurred during I2C comm to read control register 1")) ;;
  UART_Debug_PutString (CRLF ++ line "Writing new values..")%string ;;
  (if decide (ctrl_reg1 <> LIS3DH_100Hz_CTRL_REG1)
   then
     let ctrl_reg1 := LIS3DH_100Hz_CTRL_REG1 in
     error ← I2C_Peripheral_WriteRegister LIS3DH_DEVICE_ADDRESS LIS3DH_CTRL_REG1 ctrl_reg1;
     if decide (error = NO_ERROR)
     then UART_Debug_PutString
            (sprintf_02X "CONTROL REGISTER 1 successfully written as: 0x" ctrl_reg1 "")
     else UART_Debug_PutString
            (line "Error occurred during I2C comm to set control register 1")
   else mret tt) ;;
  '(error, ctrl_reg1) ←
     I2C_Peripheral_ReadRegister LIS3DH_DEVICE_ADDRESS LIS3DH_CTRL_REG1;
  if decide (error = NO_ERROR)
  then UART_Debug_PutString
         (sprintf_02X "CONTROL REGISTER 1 after overwrite operation: 0x" ctrl_reg1 "")
  else UART_Debug_PutString
         (line "Error occurred during I2C comm to read control register 1").

(** Lines 227-267: the temperature configuration register is read, written
    and read again; the result of the write is overwritten by the read. *)
Definition setup_temp_cfg_reg : M unit :=
  '(error, tmp_cfg_reg) ←
     I2C_Peripheral_ReadRegister LIS3DH_DEVICE_ADDRESS LIS3DH_TEMP_CFG_REG;
  (if decide (error = NO_ERROR)
   then UART_Debug_PutString (sprintf_02X "TEMPERATURE CONFIG REGISTER: 0x" tmp_cfg_reg "")
   else UART_Debug_PutString
          (line "Error occurred during I2C comm to read temperature config register")) ;;
  let tmp_cfg_reg := LIS3DH_TEMP_CFG_REG_NOT_ACTIVE in
  error ← I2C_Peripheral_WriteRegister LIS3DH_DEVICE_ADDRESS LIS3DH_TEMP_CFG_REG tmp_cfg_reg;
  '(error, tmp_cfg_reg) ←
     I2C_Peripheral_ReadRegister LIS3DH_DEVICE_ADDRESS LIS3DH_TEMP_CFG_REG;
  if decide (error = NO_ERROR)
  then UART_Debug_PutString
         (sprintf_02X "TEMPERATURE CONFIG REGISTER after being updated: 0x" tmp_cfg_reg "")
  else UART_Debug_PutString
         (line "Error occurred during I2C comm to read temperature config register").

(** Lines 269-307: control register 4, in the same way. *)
Definition setup_ctrl_reg4 : M unit :=
  '(error, ctrl_reg4) ←
     I2C_Peripheral_ReadRegister LIS3DH_DEVICE_ADDRESS LIS3DH_CTRL_REG4;
  (if decide (error = NO_ERROR)
   then UART_Debug_PutString (sprintf_02X "CONTROL REGISTER 4: 0x" ctrl_reg4 "")
   else UART_Debug_PutString
          (line "Error occurred during I2C comm to read control register4")) ;;
  let ctrl_reg4 := LIS3DH_CTRL_REG4_4G_HIGH in
  error ← I2C_Peripheral_WriteRegister LIS3DH_DEVICE_ADDRESS LIS3DH_CTRL_REG4 ctrl_reg4;
  '(error, ctrl_reg4) ←
     I2C_Peripheral_ReadRegister LIS3DH_DEVICE_ADDRESS LIS3DH_CTRL_REG4;
  if decide (error = NO_ERROR)
  then UART_Debug_PutString
         (sprintf_02X "CONTROL REGISTER 4 after being updated: 0x" ctrl_reg4 "")
  else UART_Debug_PutString
         (line "Error occurred during I2C comm to read control register4").

Definition startup : M unit :=
  scan_bus ;;
  read_who_am_i ;;
  read_status_register ;;
  setup_ctrl_reg1 ;;
  setup_temp_cfg_reg ;;
  setup_ctrl_reg4.

(** ** Acquisition loop (main.c, lines 311-421) *)

(** The variables of [main] that live across iterations. *)
Record Locals : Type := mkLocals {
  OutArrayHR : list Z;     (* uint8_t OutArrayHR[14] *)
  CTRL_Reg_start : Z       (* flag derived from the status register *)
}.

Definition header : Z := 0xA0.
Definition footer : Z := 0xC0.

(** Lines 320-331.  [uninit] gives the indeterminate initial content of the
    array, which is a local without initialiser. *)
Definition main_init (uninit : nat -> Z) : M Locals :=
  let OutArrayHR := (fun i => to_uint8 (uninit i)) <$> seq 0 14 in
  let CTRL_Reg_start := 0 in
  let OutArrayHR := <[0%nat := header]> OutArrayHR in
  let OutArrayHR := <[13%nat := footer]> OutArrayHR in
  set_Timer_ISR_start 0 ;;
  mret (mkLocals OutArrayHR CTRL_Reg_start).

(** Lines 339-350: the status register is read once; the flag is raised when
    the read succeeds and the three new-data bits are set. *)
Definition poll_status (l : Locals) : M Locals :=
  '(error, Check_data) ←
     I2C_Peripheral_ReadRegister LIS3DH_DEVICE_ADDRESS LIS3DH_STATUS_REG;
  if decide (error = NO_ERROR)
  then
    if decide (Z.land Check_data LIS3DH_STATUS_REG_NEW_VALUES = LIS3DH_STATUS_REG_NEW_VALUES)
    then mret (mkLocals (OutArrayHR l) 1)
    else mret l
  else mret l.

(** Lines 355-375 for X, 376-394 for Y, 395-412 for Z: the three copies
    differ in the register read and in the offsets written. *)
Definition read_axis (register_address : Z) (off : nat) (l : Locals) : M Locals :=
  '(error, AccelerometerData) ←
     I2C_Peripheral_ReadRegisterMulti LIS3DH_DEVICE_ADDRESS register_address 2;
  if decide (error = NO_ERROR)
  then
    let OutTemp := raw_sample AccelerometerData in
    let OutTempHR_int := physical_sample OutTemp in
    mret (mkLocals (store_sample off OutTempHR_int (OutArrayHR l)) (CTRL_Reg_start l))
  else mret l.

(** Lines 353-417: the gate and the block it guards. *)
Definition sample_and_send (l : Locals) : M Locals :=
  timer ← get_Timer_ISR_start;
  if decide (Z.land (CTRL_Reg_start l) timer <> 0)
  then
    l ← read_axis LIS3DH_OUT_X_L 1 l;
    l ← read_axis LIS3DH_OUT_Y_L 5 l;
    l ← read_axis LIS3DH_OUT_Z_L 9 l;
    UART_Debug_PutArray (OutArrayHR l) 14 ;;
    mret l
  else mret l.

(** Lines 418-419. *)
Definition clear_flags (l : Locals) : M Locals :=
  let l := mkLocals (OutArrayHR l) 0 in
  set_Timer_ISR_start 0 ;;
  mret l.

(** The timer interrupt is served, or not, before the gate is evaluated. *)
Definition serve_interrupt (irq : bool) : M unit :=
  if irq then Custom_Timer_ISR else mret tt.

(** The state in which line 354 is evaluated. *)
Definition at_gate (irq : bool) (l : Locals) : M Locals :=
  l ← poll_status l;
  serve_interrupt irq ;;
  mret l.

(** One iteration of [for(;;)].  [irq] tells whether the timer interrupt
    fired since the flag was last cleared and before line 354; an interrupt
    after line 354 is wiped by line 419 and leaves no trace. *)
Definition loop_body (irq : bool) (l : Locals) : M Locals :=
  l ← at_gate irq l;
  l ← sample_and_send l;
  clear_flags l.

(** The first [length irqs] iterations of the unbounded loop. *)
Fixpoint acquisition_loop (irqs : list bool) (l : Locals) : M Locals :=
  match irqs with
  | [] => mret l
  | irq :: rest => l ← loop_body irq l; acquisition_loop rest l
  end.

Definition main (uninit : nat -> Z) (irqs : list bool) : M Locals :=
  startup ;;
  l ← main_init uninit;
  acquisition_loop irqs l.

(** The world at power-up; the timer flag holds whatever it holds. *)
Definition boot (b : Bus) (timer0 : Z) : World := mkWorld b 0 [] timer0.

(** ** Observations on traces *)

Definition emitted_frames (tr : list Event) : list (list Z) :=
  omap (fun e => match e with PutArray bytes => Some bytes | _ => None end) tr.

Definition uart_lines (tr : list Event) : list string :=
  omap (fun e => match e with PutString s => Some s | _ => None end) tr.

Definition is_write_to (register_address : Z) (e : Event) : bool :=
  match e with
  | WriteRegister _ r _ => bool_decide (r = register_address)
  | _ => false
  end.

Definition write_count (register_address : Z) (tr : list Event) : nat :=
  length (List.filter (is_write_to register_address) tr).

Definition is_error_line (s : string) : bool := String.prefix "Error occurred" s.

(** The three axes, their first output register and their place in the frame. *)
Inductive Axis : Type := AxisX | AxisY | AxisZ.

#[global] Instance Axis_eq_dec : EqDecision Axis.
Proof. solve_decision. Defined.

Definition axis_register (a : Axis) : Z :=
  match a with
  | AxisX => LIS3DH_OUT_X_L
  | AxisY => LIS3DH_OUT_Y_L
  | AxisZ => LIS3DH_OUT_Z_L
  end.

Definition axis_offset (a : Axis) : nat :=
  match a with AxisX => 1 | AxisY => 5 | AxisZ => 9 end%nat.

(** Position of the axis among the burst reads of one iteration. *)
Definition axis_index (a : Axis) : nat :=
  match a with AxisX => 0 | AxisY => 1 | AxisZ => 2 end%nat.

Definition axis_bytes (a : Axis) (frame : list Z) : list Z :=
  take 4 (drop (axis_offset a) frame).

(** The four bytes lines 367-370 compute from a sample. *)
Definition sample_bytes (OutTempHR_int : Z) : list Z :=
  [ to_uint8 (Z.land OutTempHR_int 0xFF);
    to_uint8 (Z.land (Z.shiftr OutTempHR_int 8) 0xFF);
    to_uint8 (Z.land (Z.shiftr OutTempHR_int 16) 0xFF);
    to_uint8 (Z.shiftr OutTempHR_int 24) ].

(** The events of the guarded block when it runs. *)
Definition block_events (frame : list Z) : list Event :=
  [ ReadRegisterMulti LIS3DH_DEVICE_ADDRESS LIS3DH_OUT_X_L 2;
    ReadRegisterMulti LIS3DH_DEVICE_ADDRESS LIS3DH_OUT_Y_L 2;
    ReadRegisterMulti LIS3DH_DEVICE_ADDRESS LIS3DH_OUT_Z_L 2;
    PutArray frame ].

(** ** Concrete devices for the examples *)

Fixpoint lookup_reg (file : list (Z * Z)) (register_address : Z) : Z :=
  match file with
  | [] => 0
  | (r, v) :: rest => if r =? register_address then v else lookup_reg rest register_address
  end.

(** Modelled from the spec: a device at the fixed slave address that answers
    every transaction from a register file; a burst read returns consecutive
    registers in ascending address order.  The files used below already hold
    the configured values, so that writes leave them as they are. *)
Definition register_file_bus (file : list (Z * Z)) : Bus :=
  mkBus
    (fun a => bool_decide (a = LIS3DH_DEVICE_ADDRESS))
    (fun _ dev r =>
       if decide (dev = LIS3DH_DEVICE_ADDRESS)
       then (NO_ERROR, lookup_reg file r) else (NoAckError, 0))
    (fun _ dev r =>
       if decide (dev = LIS3DH_DEVICE_ADDRESS)
       then (NO_ERROR, (lookup_reg file r, lookup_reg file (r + 1)))
       else (NoAckError, (0, 0)))
    (fun _ dev _ _ =>
       if decide (dev = LIS3DH_DEVICE_ADDRESS) then NO_ERROR else NoAckError).

(** The same bus with the [k]-th register transaction failing. *)
Definition with_fault (k : nat) (e : ErrorCode) (b : Bus) : Bus :=
  mkBus
    (probe b)
    (fun i dev r => if decide (i = k) then (e, 0) else read_outcome b i dev r)
    (fun i dev r => if decide (i = k) then (e, (0, 0)) else burst_outcome b i dev r)
    (fun i dev r v => if decide (i = k) then e else write_outcome b i dev r v).

(** A configured device: identity, control registers and temperature
    configuration as the start-up leaves them. *)
Definition configured : list (Z * Z) :=
  [ (LIS3DH_WHO_AM_I_REG_ADDR, 0x33);
    (LIS3DH_CTRL_REG1, LIS3DH_100Hz_CTRL_REG1);
    (LIS3DH_TEMP_CFG_REG, LIS3DH_TEMP_CFG_REG_NOT_ACTIVE);
    (LIS3DH_CTRL_REG4, LIS3DH_CTRL_REG4_4G_HIGH) ].

(** The registers of the end-to-end scenario: X = (low 0x00, high 0x40),
    Y = (0x00, 0x00), Z = (low 0xF0, high 0xBF), status 0x07. *)
Definition scenario_file : list (Z * Z) :=
  [ (LIS3DH_STATUS_REG, 0x07);
    (LIS3DH_OUT_X_L, 0x00); (LIS3DH_OUT_X_H, 0x40);
    (LIS3DH_OUT_Y_L, 0x00); (LIS3DH_OUT_Y_H, 0x00);
    (LIS3DH_OUT_Z_L, 0xF0); (LIS3DH_OUT_Z_H, 0xBF) ] ++ configured.

(** The same samples with the two bytes of each axis exchanged. *)
Definition exchanged_file : list (Z * Z) :=
  [ (LIS3DH_STATUS_REG, 0x07);
    (LIS3DH_OUT_X_L, 0x40); (LIS3DH_OUT_X_H, 0x00);
    (LIS3DH_OUT_Y_L, 0x00); (LIS3DH_OUT_Y_H, 0x00);
    (LIS3DH_OUT_Z_L, 0xBF); (LIS3DH_OUT_Z_H, 0xF0) ] ++ configured.

(** The frame of the end-to-end scenario as the specification gives it, the
    Z bytes computed from its formula: -1025 * 4 * 9.80665 truncated is
    -40207, which is 0xFFFF62F1. *)
Definition spec_scenario_frame : list Z :=
  [0xA0; 0x32; 0x9C; 0x00; 0x00; 0x00; 0x00; 0x00; 0x00; 0xF1; 0x62; 0xFF; 0xFF; 0xC0].

(** ** States of the loop *)

(** [main] up to the first evaluation of the loop condition. *)
Definition power_on (uninit : nat -> Z) (b : Bus) (timer0 : Z) : Locals * World :=
  (startup ;; main_init uninit) (boot b timer0).

Definition gate_state (irq : bool) (s : Locals * World) : Locals * World :=
  at_gate irq s.1 s.2.

Definition iteration (irq : bool) (s : Locals * World) : Locals * World :=
  loop_body irq s.1 s.2.

(** The states in which an iteration of [for(;;)] begins. *)
Inductive loop_head : Locals * World -> Prop :=
| head_first uninit b timer0 : loop_head (power_on uninit b timer0)
| head_next irq s : loop_head s -> loop_head (iteration irq s).

(** Outcome of the status read of the iteration that begins in [s]. *)
Definition status_outcome (s : Locals * World) : ErrorCode * Z :=
  read_outcome (bus s.2) (issued s.2) LIS3DH_DEVICE_ADDRESS LIS3DH_STATUS_REG.

(** Outcome of the burst read of an axis in the iteration that begins in [s],
    when the guarded block runs. *)
Definition axis_outcome (a : Axis) (s : Locals * World) : ErrorCode * (Z * Z) :=
  burst_outcome (bus s.2) (axis_index a + S (issued s.2))
    LIS3DH_DEVICE_ADDRESS (axis_register a).

(** The test of lines 343-348 on the outcome of the status read. *)
Definition data_ready (outcome : ErrorCode * Z) : bool :=
  bool_decide (outcome.1 = NO_ERROR /\
               Z.land outcome.2 LIS3DH_STATUS_REG_NEW_VALUES = LIS3DH_STATUS_REG_NEW_VALUES).

(** What one burst read does to the frame. *)
Definition axis_update (outcome : ErrorCode * (Z * Z)) (off : nat) (frame : list Z)
  : list Z :=
  if decide (outcome.1 = NO_ERROR)
  then store_sample off (physical_sample (raw_sample outcome.2)) frame
  else frame.

(** The frame after the three burst reads of the iteration that begins in
    [s]. *)
Definition next_frame (s : Locals * World) : list Z :=
  axis_update (axis_outcome AxisZ s) 9
    (axis_update (axis_outcome AxisY s) 5
       (axis_update (axis_outcome AxisX s) 1 (OutArrayHR s.1))).

Definition well_framed (frame : list Z) : Prop :=
  length frame = 14%nat /\ frame !! 0%nat = Some 0xA0 /\ frame !! 13%nat = Some 0xC0.

(** What holds whenever an iteration begins: both flags are clear, the array
    is framed, and so is every frame sent so far. *)
Record loop_invariant (s : Locals * World) : Prop := mkInv {
  inv_ready : CTRL_Reg_start s.1 = 0;
  inv_timer : Timer_ISR_start s.2 = 0;
  inv_frame : well_framed (OutArrayHR s.1);
  inv_sent : Forall well_framed (emitted_frames (trace s.2))
}.

(** A computation only adds events satisfying [P] to the trace. *)
Definition only_emits {A} (P : Event -> Prop) (c : M A) : Prop :=
  forall w, exists evs, trace (c w).2 = trace w ++ evs /\ Forall P evs.

Definition not_a_frame (e : Event) : Prop :=
  match e with PutArray _ => False | _ => True end.

(** The register transactions of a trace, in order. *)
Definition transactions (tr : list Event) : list Event :=
  List.filter
    (fun e => match e with
              | ReadRegister _ _ | ReadRegisterMulti _ _ _ | WriteRegister _ _ _ => true
              | _ => false
              end) tr.

(** ** Concrete runs for the examples *)

(** The first iteration of the end-to-end scenario begins here. *)
Definition scenario_head : Locals * World :=
  power_on (fun _ => 0) (register_file_bus scenario_file) 0.

Definition exchanged_head : Locals * World :=
  power_on (fun _ => 0) (register_file_bus exchanged_file) 0.

(** On a configured device the start-up takes the register transactions 0
    to 9; the first iteration takes 10 (status), 11, 12 and 13 (X, Y, Z). *)
Definition status_fault_head : Locals * World :=
  power_on (fun _ => 0) (with_fault 10 BusError (register_file_bus scenario_file)) 0.

Definition y_fault_head : Locals * World :=
  power_on (fun _ => 0) (with_fault 12 NoAckError (register_file_bus scenario_file)) 0.

(** A device whose control register 1 still holds its reset value. *)
Definition after_reset : list (Z * Z) :=
  [ (LIS3DH_WHO_AM_I_REG_ADDR, 0x33); (LIS3DH_CTRL_REG1, 0x07) ].

Definition configured_bus : Bus := register_file_bus configured.

(** On a configured device the write of the temperature configuration is
    the register transaction 5 of the start-up. *)
Definition temp_write_fault_bus : Bus := with_fault 5 NoAckError configured_bus.

(** After a reset the write of control register 1 is the transaction 3. *)
Definition ctrl1_write_fault_bus : Bus :=
  with_fault 3 NoAckError (register_file_bus after_reset).

(** Two buses on which every read has the same outcome. *)
Definition same_reads (b1 b2 : Bus) : Prop :=
  forall k dev r, read_outcome b1 k dev r = read_outcome b2 k dev r.

(** ** The conversion over the whole range of a sample *)

Definition sample_range : list Z := (fun k => Z.of_nat k - 2048) <$> seq 0 4096.

(** The value of the conversion in terms of the exact product: single
    precision reaches the next integer at the non-zero multiples of 406. *)
Definition expected_physical (raw_shifted : Z) : Z :=
  if decide (raw_shifted mod 406 = 0 /\ raw_shifted <> 0)
  then spec_physical_sample LIS3DH_SENS_4G raw_shifted + Z.sgn raw_shifted
  else spec_physical_sample LIS3DH_SENS_4G raw_shifted.

(** ** The start-up in closed form

    What the start-up puts on the trace, as a function of the bus and of the
    number [k] of register transactions issued before it. *)

(** Lines 120-125 for the addresses of [indices]. *)
Definition scan_events (present : Z -> bool) (indices : list nat) : list Event :=
  flat_map
    (fun i =>
       IsDeviceConnected (Z.of_nat i) ::
       (if present (Z.of_nat i)
        then [PutString (sprintf_02X "Device 0x" (Z.of_nat i) " is connected")]
        else []))
    indices.

(** The line printed after a read: the value, or the error message. *)
Definition report (before after failure : string) (o : ErrorCode * Z) : string :=
  if decide (o.1 = NO_ERROR) then sprintf_02X before o.2 after else line failure.

Definition who_am_i_events (b : Bus) (k : nat) : list Event :=
  [ ReadRegister LIS3DH_DEVICE_ADDRESS LIS3DH_WHO_AM_I_REG_ADDR;
    PutString
      (report "WHO AM I REG: 0x" " [Expected: 0x33]" "Error occurred during I2C comm"
         (read_outcome b k LIS3DH_DEVICE_ADDRESS LIS3DH_WHO_AM_I_REG_ADDR)) ].

Definition status_events (b : Bus) (k : nat) : list Event :=
  [ ReadRegister LIS3DH_DEVICE_ADDRESS LIS3DH_STATUS_REG;
    PutString
      (report "STATUS REGISTER: 0x" ""
         "Error occurred during I2C comm to read status register"
         (read_outcome b k LIS3DH_DEVICE_ADDRESS LIS3DH_STATUS_REG)) ].

(** Whether line 190 finds the variable different from the 100 Hz value. *)
Definition ctrl_reg1_written (b : Bus) (k : nat) : bool :=
  negb (bool_decide
          ((read_outcome b k LIS3DH_DEVICE_ADDRESS LIS3DH_CTRL_REG1).2
           = LIS3DH_100Hz_CTRL_REG1)).

(** Register transactions of the control register 1 step. *)
Definition ctrl_reg1_count (b : Bus) (k : nat) : nat :=
  if ctrl_reg1_written b k then 3%nat else 2%nat.

Definition ctrl_reg1_events (b : Bus) (k : nat) : list Event :=
  [ ReadRegister LIS3DH_DEVICE_ADDRESS LIS3DH_CTRL_REG1;
    PutString
      (report "CONTROL REGISTER 1: 0x" ""
         "Error occurred during I2C comm to read control register 1"
         (read_outcome b k LIS3DH_DEVICE_ADDRESS LIS3DH_CTRL_REG1));
    PutString (CRLF ++ line "Writing new values..")%string ] ++
  (if ctrl_reg1_written b k
   then
     [ WriteRegister LIS3DH_DEVICE_ADDRESS LIS3DH_CTRL_REG1 LIS3DH_100Hz_CTRL_REG1;
       PutString
         (report "CONTROL REGISTER 1 successfully written as: 0x" ""
            "Error occurred during I2C comm to set control register 1"
            (write_outcome b (S k) LIS3DH_DEVICE_ADDRESS LIS3DH_CTRL_REG1
               LIS3DH_100Hz_CTRL_REG1,
             LIS3DH_100Hz_CTRL_REG1)) ]
   else []) ++
  [ ReadRegister LIS3DH_DEVICE_ADDRESS LIS3DH_CTRL_REG1;
    PutString
      (report "CONTROL REGISTER 1 after overwrite operation: 0x" ""
         "Error occurred during I2C comm to read control register 1"
         (read_outcome b (ctrl_reg1_count b k - 1 + k)
            LIS3DH_DEVICE_ADDRESS LIS3DH_CTRL_REG1)) ].

Definition temp_cfg_events (b : Bus) (k : nat) : list Event :=
  [ ReadRegister LIS3DH_DEVICE_ADDRESS LIS3DH_TEMP_CFG_REG;
    PutString
      (report "TEMPERATURE CONFIG REGISTER: 0x" ""
         "Error occurred during I2C comm to read temperature config register"
         (read_outcome b k LIS3DH_DEVICE_ADDRESS LIS3DH_TEMP_CFG_REG));
    WriteRegister LIS3DH_DEVICE_ADDRESS LIS3DH_TEMP_CFG_REG LIS3DH_TEMP_CFG_REG_NOT_ACTIVE;
    ReadRegister LIS3DH_DEVICE_ADDRESS LIS3DH_TEMP_CFG_REG;
    PutString
      (report "TEMPERATURE CONFIG REGISTER after being updated: 0x" ""
         "Error occurred during I2C comm to read temperature config register"
         (read_outcome b (2 + k) LIS3DH_DEVICE_ADDRESS LIS3DH_TEMP_CFG_REG)) ].

Definition ctrl_reg4_events (b : Bus) (k : nat) : list Event :=
  [ ReadRegister LIS3DH_DEVICE_ADDRESS LIS3DH_CTRL_REG4;
    PutString
      (report "CONTROL REGISTER 4: 0x" ""
         "Error occurred during I2C comm to read control register4"
         (read_outcome b k LIS3DH_DEVICE_ADDRESS LIS3DH_CTRL_REG4));
    WriteRegister LIS3DH_DEVICE_ADDRESS LIS3DH_CTRL_REG4 LIS3DH_CTRL_REG4_4G_HIGH;
    ReadRegister LIS3DH_DEVICE_ADDRESS LIS3DH_CTRL_REG4;
    PutString
      (report "CONTROL REGISTER 4 after being updated: 0x" ""
         "Error occurred during I2C comm to read control register4"
         (read_outcome b (2 + k) LIS3DH_DEVICE_ADDRESS LIS3DH_CTRL_REG4)) ].

(** Register transactions of the whole start-up: 10, or 11 with the write of
    control register 1. *)
Definition startup_count (b : Bus) (k : nat) : nat :=
  (8 + ctrl_reg1_count b (2 + k))%nat.

Definition startup_events (b : Bus) (k : nat) : list Event :=
  scan_events (probe b) (seq 0 128) ++
  who_am_i_events b k ++
  status_events b (1 + k) ++
  ctrl_reg1_events b (2 + k) ++
  temp_cfg_events b (2 + ctrl_reg1_count b (2 + k) + k) ++
  ctrl_reg4_events b (5 + ctrl_reg1_count b (2 + k) + k).

(** 1 when the transaction failed, 0 otherwise. *)
Definition failed (e : ErrorCode) : nat := if decide (e = NO_ERROR) then 0%nat else 1%nat.

(** The failures the start-up looks at, when it begins with [k] transactions
    issued: those of its eight reads and of the write of control register 1
    when it is issued. *)
Definition examined_failures (b : Bus) (k : nat) : nat :=
  let n := ctrl_reg1_count b (2 + k) in
  (failed (read_outcome b k LIS3DH_DEVICE_ADDRESS LIS3DH_WHO_AM_I_REG_ADDR).1 +
   failed (read_outcome b (1 + k) LIS3DH_DEVICE_ADDRESS LIS3DH_STATUS_REG).1 +
   failed (read_outcome b (2 + k) LIS3DH_DEVICE_ADDRESS LIS3DH_CTRL_REG1).1 +
   (if ctrl_reg1_written b (2 + k)
    then failed (write_outcome b (3 + k) LIS3DH_DEVICE_ADDRESS LIS3DH_CTRL_REG1
                   LIS3DH_100Hz_CTRL_REG1)
    else 0) +
   failed (read_outcome b (1 + n + k) LIS3DH_DEVICE_ADDRESS LIS3DH_CTRL_REG1).1 +
   failed (read_outcome b (2 + n + k) LIS3DH_DEVICE_ADDRESS LIS3DH_TEMP_CFG_REG).1 +
   failed (read_outcome b (4 + n + k) LIS3DH_DEVICE_ADDRESS LIS3DH_TEMP_CFG_REG).1 +
   failed (read_outcome b (5 + n + k) LIS3DH_DEVICE_ADDRESS LIS3DH_CTRL_REG4).1 +
   failed (read_outcome b (7 + n + k) LIS3DH_DEVICE_ADDRESS LIS3DH_CTRL_REG4).1)%nat.

Definition error_line_count (tr : list Event) : nat :=
  length (List.filter is_error_line (uart_lines tr)).

(** The events an iteration of the loop may add to the trace. *)
Definition loop_event (e : Event) : Prop :=
  match e with
  | ReadRegister dev r => dev = LIS3DH_DEVICE_ADDRESS /\ r = LIS3DH_STATUS_REG
  | ReadRegisterMulti dev r n =>
      dev = LIS3DH_DEVICE_ADDRESS /\ n = 2 /\
      (r = LIS3DH_OUT_X_L \/ r = LIS3DH_OUT_Y_L \/ r = LIS3DH_OUT_Z_L)
  | PutArray _ => True
  | _ => False
  end.

(** The array as lines 322-330 leave it. *)
Definition initial_frame (uninit : nat -> Z) : list Z :=
  0xA0 :: ((fun i => to_uint8 (uninit i)) <$> seq 1 12) ++ [0xC0].

(** The addresses probed on a trace, in order. *)
Definition probed_addresses (tr : list Event) : list Z :=
  omap (fun e => match e with IsDeviceConnected a => Some a | _ => None end) tr.

(** The scenario with the three burst reads of the first iteration
    (transactions 11 to 13) failing, and with those of the second iteration
    (15 to 17) failing. *)
Definition first_reads_fail_bus : Bus :=
  with_fault 11 NoAckError (with_fault 12 NoAckError (with_fault 13 NoAckError
    (register_file_bus scenario_file))).

Definition second_reads_fail_bus : Bus :=
  with_fault 15 BusError (with_fault 16 BusError (with_fault 17 BusError
    (register_file_bus scenario_file))).

(** Some content for the array before it is written. *)
Definition stack_garbage (i : nat) : Z := 0x1F0 + Z.of_nat i.

(** Checks of the conversion over the whole range of a sample. *)
Definition physical_in_bounds (r : Z) : bool :=
  (-40168 <=? physical_sample r) && (physical_sample r <=? 40148).

Definition physical_step_ok (r : Z) : bool :=
  (r =? 2047) ||
  ((physical_sample r + 19 <=? physical_sample (r + 1)) &&
   (physical_sample (r + 1) <=? physical_sample r + 20)).

Definition physical_odd_ok (r : Z) : bool :=
  (r =? -2048) || (physical_sample (- r) =? - physical_sample r).

(** The two upper bytes of a converted sample: both 0x00 when it is not
    negative, both 0xFF when it is. *)
Definition upper_bytes_ok (r : Z) : bool :=
  let v := physical_sample r in
  let upper := drop 2 (sample_bytes v) in
  if v <? 0 then bool_decide (upper = [0xFF; 0xFF]) else bool_decide (upper = [0x00; 0x00]).

(** * Properties *)

(** ** Integer conversions *)

Lemma to_int16_id z : -32768 <= z < 32768 -> to_int16 z = z.
Proof. intros H. unfold to_int16. rewrite Z.mod_small; lia. Qed.

Lemma to_int16_range z : -32768 <= to_int16 z < 32768.
Proof.
  unfold to_int16.
  pose proof (Z.mod_pos_bound (z + 32768) 65536 ltac:(lia)). lia.
Qed.

Lemma to_int32_id z : is_int32 z -> to_int32 z = z.
Proof. unfold is_int32, to_int32. intros H. rewrite Z.mod_small; lia. Qed.

Lemma shiftr4_range z : -32768 <= z < 32768 -> -2048 <= Z.shiftr z 4 <= 2047.
Proof.
  intros H. rewrite Z.shiftr_div_pow2 by lia.
  change (2 ^ 4) with 16. split.
  - apply Z.div_le_lower_bound; lia.
  - apply Z.lt_succ_r, Z.div_lt_upper_bound; lia.
Qed.

(** ** Decoding of a register pair *)

Lemma raw_sample_range d : -2048 <= raw_sample d <= 2047.
Proof.
  destruct d as [d0 d1]. unfold raw_sample.
  pose proof (shiftr4_range _ (to_int16_range (Z.lor d1 (Z.shiftl d0 8)))) as H.
  rewrite to_int16_id; lia.
Qed.

(** The code takes the byte returned first as the high byte: its decoding is
    the one of the specification with the two bytes exchanged. *)
Lemma raw_sample_first_byte_high low high :
  raw_sample (low, high) = spec_raw_sample high low.
Proof.
  unfold raw_sample, spec_raw_sample. rewrite Z.lor_comm.
  apply to_int16_id.
  pose proof (shiftr4_range _ (to_int16_range (Z.lor (Z.shiftl low 8) high))). lia.
Qed.

(** C1.  The register pair (low = 0x00, high = 0x40) of the specification's
    example, returned by the burst read in ascending address order, is decoded
    by the code to 4, where the signed 16-bit value (high << 8) | low shifted
    right by 4 is 1024: the code shifts the low register byte into the high
    half. *)
Theorem raw_sample_exchanges_bytes :
  raw_sample (0x00, 0x40) = 4 /\
  spec_raw_sample 0x00 0x40 = 1024 /\
  raw_sample (0x00, 0x40) <> spec_raw_sample 0x00 0x40.
Proof. vm_compute. repeat split; congruence. Qed.

(** ** Conversion to physical units *)

Lemma G_TO_ACC_bits : G_TO_ACC = IEEE.BF 0x139D013A92A305 (-49).
Proof. vm_compute. reflexivity. Qed.

Lemma in_sample_range r : -2048 <= r <= 2047 -> r ∈ sample_range.
Proof.
  intros H. unfold sample_range. apply list_elem_of_fmap.
  exists (Z.to_nat (r + 2048)). split; [lia|].
  apply elem_of_seq. lia.
Qed.

Lemma physical_sample_checked :
  forallb (fun r => physical_sample r =? expected_physical r) sample_range = true.
Proof. vm_compute. reflexivity. Qed.

(** C2, as the code has it.  For every decoded sample, the value written into
    the frame is the sample times 2 (the sensitivity the code defines for the
    +-4g high-resolution mode) times 9.80665, computed in double precision,
    rounded to single precision and truncated toward zero; it is the exact
    product truncated toward zero, except at the non-zero multiples of 406
    where it is one further from zero.  The sample 1024 yields 20084. *)
Theorem physical_sample_value raw_shifted :
  -2048 <= raw_shifted <= 2047 ->
  LIS3DH_SENS_4G = 2 /\
  physical_sample raw_shifted = expected_physical raw_shifted /\
  physical_sample 1024 = 20084.
Proof.
  intros H. split; [reflexivity|]. split; [|vm_compute; reflexivity].
  pose proof physical_sample_checked as Hall.
  rewrite forallb_forall in Hall.
  apply Z.eqb_eq, Hall, list_elem_of_In, in_sample_range, H.
Qed.

Lemma physical_sample_value_witness :
  LIS3DH_SENS_4G = 2 /\
  physical_sample 812 = expected_physical 812 /\
  physical_sample 1024 = 20084.
Proof. apply (physical_sample_value 812). lia. Defined.

(** C2 as stated fails: for the sample 1024 the code writes 20084, which is
    neither 40178 nor 1024 * 4 * 9.80665 truncated (40168); and for the sample
    406 it writes 7963 where the exact product 7962.9998 truncates to 7962. *)
Lemma physical_sample_not_times_4 :
  physical_sample 1024 = 20084 /\
  physical_sample 1024 <> 40178 /\
  physical_sample 1024 <> spec_physical_sample 4 1024 /\
  physical_sample 406 = 7963 /\
  spec_physical_sample 2 406 = 7962.
Proof. vm_compute. repeat split; congruence. Qed.

(** ** Packing of a sample into the frame *)

Lemma length_store_sample off v frame :
  length (store_sample off v frame) = length frame.
Proof. unfold store_sample. rewrite !length_insert. reflexivity. Qed.

Lemma store_sample_lookup_ne off v frame i :
  (i < off \/ off + 3 < i)%nat -> store_sample off v frame !! i = frame !! i.
Proof.
  intros H. unfold store_sample.
  rewrite !list_lookup_insert_ne by lia. reflexivity.
Qed.

Lemma store_sample_lookup off v frame j :
  (off + 3 < length frame)%nat -> (j < 4)%nat ->
  store_sample off v frame !! (off + j)%nat = sample_bytes v !! j.
Proof.
  intros Hlen Hj. unfold store_sample, sample_bytes.
  destruct j as [|[|[|[|j]]]]; [| | | |lia].
  - rewrite Nat.add_0_r, !list_lookup_insert_ne by lia.
    rewrite list_lookup_insert_eq by lia. reflexivity.
  - replace (off + 1)%nat with (S off) by lia.
    rewrite !list_lookup_insert_ne by lia.
    rewrite list_lookup_insert_eq by (rewrite !length_insert; lia). reflexivity.
  - replace (off + 2)%nat with (S (S off)) by lia.
    rewrite !list_lookup_insert_ne by lia.
    rewrite list_lookup_insert_eq by (rewrite !length_insert; lia). reflexivity.
  - replace (off + 3)%nat with (S (S (S off))) by lia.
    rewrite list_lookup_insert_eq by (rewrite !length_insert; lia). reflexivity.
Qed.

Lemma take_drop_store_sample off v frame :
  (off + 3 < length frame)%nat ->
  take 4 (drop off (store_sample off v frame)) = sample_bytes v.
Proof.
  intros Hlen. apply list_eq. intros i.
  destruct (decide (i < 4)%nat) as [Hi|Hi].
  - rewrite lookup_take_lt, lookup_drop by lia. apply store_sample_lookup; lia.
  - rewrite lookup_take_ge by lia. symmetry. apply lookup_ge_None_2.
    unfold sample_bytes. simpl. lia.
Qed.

Lemma take_drop_store_sample_ne off off' v frame :
  (off + 4 <= off' \/ off' + 4 <= off)%nat ->
  take 4 (drop off (store_sample off' v frame)) = take 4 (drop off frame).
Proof.
  intros H. apply list_eq. intros i.
  destruct (decide (i < 4)%nat) as [Hi|Hi].
  - rewrite !lookup_take_lt, !lookup_drop by lia.
    apply store_sample_lookup_ne. lia.
  - rewrite !lookup_take_ge by lia. reflexivity.
Qed.

(** The four bytes of a signed 32-bit value, read least significant byte
    first as a signed 32-bit value, give the value back. *)
Lemma sample_bytes_recompose v :
  is_int32 v ->
  to_int32 (to_uint8 (Z.land v 0xFF)
            + to_uint8 (Z.land (Z.shiftr v 8) 0xFF) * 2 ^ 8
            + to_uint8 (Z.land (Z.shiftr v 16) 0xFF) * 2 ^ 16
            + to_uint8 (Z.shiftr v 24) * 2 ^ 24) = v.
Proof.
  unfold is_int32, to_int32, to_uint8. intros H.
  change 0xFF with (Z.ones 8).
  rewrite !Z.land_ones, !Z.shiftr_div_pow2 by lia.
  change (2 ^ 8) with 256. change (2 ^ 16) with 65536. change (2 ^ 24) with 16777216.
  rewrite !Zmod_mod.
  replace (v / 65536) with (v / 256 / 256) by (rewrite Z.div_div by lia; reflexivity).
  replace (v / 16777216) with (v / 256 / 256 / 256)
    by (rewrite !Z.div_div by lia; reflexivity).
  Z.div_mod_to_equations. lia.
Qed.

Lemma unpack_store_sample off v frame :
  (off + 3 < length frame)%nat -> is_int32 v ->
  spec_unpack_le32 off (store_sample off v frame) = v.
Proof.
  intros Hlen Hv. unfold spec_unpack_le32.
  rewrite !store_sample_lookup by lia.
  simpl. apply sample_bytes_recompose, Hv.
Qed.

Lemma unpack_store_sample_ne off off' v frame :
  (off + 4 <= off' \/ off' + 4 <= off)%nat ->
  spec_unpack_le32 off (store_sample off' v frame) = spec_unpack_le32 off frame.
Proof.
  intros H. unfold spec_unpack_le32.
  rewrite !store_sample_lookup_ne by lia. reflexivity.
Qed.

(** C9.  Three signed 32-bit values stored by the code at the offsets 1-4,
    5-8 and 9-12 of the 14-byte frame, least significant byte first, are
    recovered exactly by reading those offsets as little-endian signed 32-bit
    integers. *)
Theorem pack_unpack_roundtrip x y z frame :
  is_int32 x -> is_int32 y -> is_int32 z -> length frame = 14%nat ->
  spec_unpack_frame (store_sample 9 z (store_sample 5 y (store_sample 1 x frame)))
  = (x, y, z).
Proof.
  intros Hx Hy Hz Hlen. unfold spec_unpack_frame.
  rewrite (unpack_store_sample 9) by (rewrite ?length_store_sample; done || lia).
  rewrite !(unpack_store_sample_ne 1 9), !(unpack_store_sample_ne 5 9) by lia.
  rewrite (unpack_store_sample 5) by (rewrite ?length_store_sample; done || lia).
  rewrite !(unpack_store_sample_ne 1 5) by lia.
  rewrite (unpack_store_sample 1) by (done || lia).
  reflexivity.
Qed.

Lemma pack_unpack_roundtrip_witness :
  spec_unpack_frame
    (store_sample 9 (-20103) (store_sample 5 2147483647 (store_sample 1 (-2147483648)
       (replicate 14 0))))
  = (-2147483648, 2147483647, -20103).
Proof.
  apply pack_unpack_roundtrip; unfold is_int32; (lia || reflexivity).
Defined.

(** ** The acquisition loop, step by step *)

Ltac run_monad := unfold mbind, M_bind, mret, M_ret.
Ltac run_monad_in H := unfold mbind, M_bind, mret, M_ret in H.

Lemma poll_status_eq l w :
  poll_status l w =
  (mkLocals (OutArrayHR l)
     (if data_ready (read_outcome (bus w) (issued w)
                       LIS3DH_DEVICE_ADDRESS LIS3DH_STATUS_REG)
      then 1 else CTRL_Reg_start l),
   transact (ReadRegister LIS3DH_DEVICE_ADDRESS LIS3DH_STATUS_REG) w).
Proof.
  unfold poll_status, I2C_Peripheral_ReadRegister, data_ready. run_monad.
  destruct (read_outcome _ _ _ _) as [e d]. simpl.
  destruct l as [frame flag]. simpl.
  destruct (decide (e = NO_ERROR)) as [He|He].
  - destruct (decide (Z.land d _ = _)) as [Hd|Hd].
    + rewrite bool_decide_eq_true_2 by done. reflexivity.
    + rewrite bool_decide_eq_false_2 by tauto. reflexivity.
  - rewrite bool_decide_eq_false_2 by tauto. reflexivity.
Qed.

Lemma gate_state_eq irq s :
  gate_state irq s =
  (mkLocals (OutArrayHR s.1)
     (if data_ready (status_outcome s) then 1 else CTRL_Reg_start s.1),
   mkWorld (bus s.2) (S (issued s.2))
     (trace s.2 ++ [ReadRegister LIS3DH_DEVICE_ADDRESS LIS3DH_STATUS_REG])
     (if irq then 1 else Timer_ISR_start s.2)).
Proof.
  destruct s as [l w]. unfold gate_state, at_gate. simpl. run_monad.
  rewrite poll_status_eq. unfold status_outcome, serve_interrupt. simpl.
  destruct irq; reflexivity.
Qed.

Lemma read_axis_eq register_address off l w :
  read_axis register_address off l w =
  (mkLocals
     (axis_update (burst_outcome (bus w) (issued w)
                     LIS3DH_DEVICE_ADDRESS register_address) off (OutArrayHR l))
     (CTRL_Reg_start l),
   transact (ReadRegisterMulti LIS3DH_DEVICE_ADDRESS register_address 2) w).
Proof.
  unfold read_axis, I2C_Peripheral_ReadRegisterMulti, axis_update. run_monad.
  destruct (burst_outcome _ _ _ _) as [e d]. simpl.
  destruct l as [frame flag]. destruct (decide (e = NO_ERROR)); reflexivity.
Qed.

(** One iteration, in closed form: the gate is the conjunction of the two
    flags in the state [gate_state irq s]; the block reads the three axes and
    sends the frame; both flags are cleared. *)
Lemma iteration_eq irq s :
  iteration irq s =
  let g := gate_state irq s in
  if decide (Z.land (CTRL_Reg_start g.1) (Timer_ISR_start g.2) <> 0)
  then (mkLocals (next_frame s) 0,
        mkWorld (bus s.2) (4 + issued s.2)
          (trace g.2 ++ block_events (take 14 (next_frame s))) 0)
  else (mkLocals (OutArrayHR s.1) 0,
        mkWorld (bus s.2) (1 + issued s.2) (trace g.2) 0).
Proof.
  pose proof (gate_state_eq irq s) as Hg.
  unfold iteration, loop_body. run_monad.
  unfold gate_state in *. destruct (at_gate irq s.1 s.2) as [lg wg].
  injection Hg as -> ->. cbv zeta.
  unfold sample_and_send, clear_flags, get_Timer_ISR_start, set_Timer_ISR_start,
    UART_Debug_PutArray, emit.
  run_monad. cbn [fst snd CTRL_Reg_start Timer_ISR_start].
  destruct (decide (Z.land _ _ <> 0)) as [Hgate|Hgate].
  - rewrite !read_axis_eq. cbn.
    unfold next_frame, axis_outcome. cbn.
    rewrite <- !app_assoc. reflexivity.
  - reflexivity.
Qed.

(** ** What the start-up puts on the trace *)

Lemma only_emits_ret {A} P (a : A) : only_emits P (mret a).
Proof. intros w. exists []. rewrite app_nil_r. split; [reflexivity|constructor]. Qed.

Lemma only_emits_bind {A B} P (c : M A) (k : A -> M B) :
  only_emits P c -> (forall a, only_emits P (k a)) -> only_emits P (c ≫= k).
Proof.
  intros Hc Hk w. run_monad.
  destruct (Hc w) as (evs1 & E1 & F1). destruct (c w) as [a w1]. simpl in E1.
  destruct (Hk a w1) as (evs2 & E2 & F2).
  exists (evs1 ++ evs2). rewrite E2, E1, app_assoc. split; [reflexivity|].
  apply Forall_app; split; assumption.
Qed.

Lemma only_emits_probe P a :
  P (IsDeviceConnected a) -> only_emits P (I2C_Peripheral_IsDeviceConnected a).
Proof. intros He w. eexists [_]. split; [reflexivity|]. repeat constructor. exact He. Qed.

Lemma only_emits_read P dev r :
  P (ReadRegister dev r) -> only_emits P (I2C_Peripheral_ReadRegister dev r).
Proof. intros He w. eexists [_]. split; [reflexivity|]. repeat constructor. exact He. Qed.

Lemma only_emits_write P dev r v :
  P (WriteRegister dev r v) -> only_emits P (I2C_Peripheral_WriteRegister dev r v).
Proof. intros He w. eexists [_]. split; [reflexivity|]. repeat constructor. exact He. Qed.

Lemma only_emits_string P m :
  P (PutString m) -> only_emits P (UART_Debug_PutString m).
Proof. intros He w. eexists [_]. split; [reflexivity|]. repeat constructor. exact He. Qed.

Lemma only_emits_for_each P indices body :
  (forall i, only_emits P (body i)) -> only_emits P (for_each indices body).
Proof.
  intros Hbody. induction indices as [|i rest IH]; simpl.
  - apply only_emits_ret.
  - apply only_emits_bind; [apply Hbody|intros _; exact IH].
Qed.

Ltac emits_step :=
  first
    [ apply only_emits_ret
    | apply only_emits_for_each; intros
    | apply only_emits_bind; [|intros]
    | apply only_emits_probe; exact I
    | apply only_emits_read; exact I
    | apply only_emits_write; exact I
    | apply only_emits_string; exact I
    | match goal with
      | |- only_emits _ (let '(_, _) := ?p in _) => destruct p
      | |- only_emits _ (if decide ?c then _ else _) => destruct (decide c)
      | |- only_emits _ (if ?b then _ else _) => destruct b
      end ].

Lemma startup_sends_no_frame : only_emits not_a_frame startup.
Proof.
  unfold startup, scan_bus, read_who_am_i, read_status_register, setup_ctrl_reg1,
    setup_temp_cfg_reg, setup_ctrl_reg4.
  repeat emits_step.
Qed.

Lemma emitted_frames_none evs :
  Forall not_a_frame evs -> emitted_frames evs = [].
Proof.
  induction 1 as [|e evs He _ IH]; [reflexivity|].
  destruct e; simpl in He; try contradiction; exact IH.
Qed.

Lemma emitted_frames_app tr1 tr2 :
  emitted_frames (tr1 ++ tr2) = emitted_frames tr1 ++ emitted_frames tr2.
Proof. apply omap_app. Qed.

(** ** Invariants of the loop *)

Lemma well_framed_axis_update o off frame :
  (0 < off)%nat -> (off + 3 < 13)%nat ->
  well_framed frame -> well_framed (axis_update o off frame).
Proof.
  intros H0 H13 (Hlen & Hh & Hf). unfold axis_update.
  destruct (decide (o.1 = NO_ERROR)); [|done].
  unfold well_framed.
  rewrite length_store_sample, !store_sample_lookup_ne by lia. done.
Qed.

Lemma well_framed_next_frame s :
  well_framed (OutArrayHR s.1) -> well_framed (next_frame s).
Proof.
  intros H. unfold next_frame.
  repeat (apply well_framed_axis_update; [lia|lia|]). exact H.
Qed.

Lemma power_on_eq uninit b timer0 :
  exists evs,
    Forall not_a_frame evs /\
    (power_on uninit b timer0).1 =
      mkLocals (<[13%nat := footer]>
                  (<[0%nat := header]> ((fun i => to_uint8 (uninit i)) <$> seq 0 14))) 0 /\
    trace (power_on uninit b timer0).2 = evs /\
    Timer_ISR_start (power_on uninit b timer0).2 = 0.
Proof.
  destruct (startup_sends_no_frame (boot b timer0)) as (evs & E & F).
  unfold power_on. run_monad.
  destruct (startup (boot b timer0)) as [[] w1]. simpl in E.
  exists evs. unfold main_init, set_Timer_ISR_start. run_monad. simpl.
  repeat split; assumption.
Qed.

Lemma loop_head_invariant s : loop_head s -> loop_invariant s.
Proof.
  induction 1 as [uninit b timer0|irq s Hs [Hr Ht Hf Hsent]].
  - destruct (power_on_eq uninit b timer0) as (evs & F & El & Et & Eti).
    split.
    + rewrite El. reflexivity.
    + exact Eti.
    + rewrite El. cbn [OutArrayHR]. unfold well_framed.
      rewrite !length_insert, length_fmap, length_seq.
      rewrite list_lookup_insert_ne by lia.
      rewrite !list_lookup_insert_eq
        by (rewrite ?length_insert, length_fmap, length_seq; lia).
      done.
    + rewrite Et, emitted_frames_none by assumption. constructor.
  - rewrite iteration_eq. cbv zeta. rewrite gate_state_eq. cbn [fst snd].
    cbn [CTRL_Reg_start Timer_ISR_start trace].
    pose proof (well_framed_next_frame s Hf) as Hn.
    destruct (decide (Z.land _ _ <> 0)); split; cbn [fst snd]; try done.
    + cbn [trace]. rewrite !emitted_frames_app. simpl. rewrite app_nil_r.
      apply Forall_app; split; [assumption|].
      rewrite take_ge by (destruct Hn as [-> _]; lia).
      constructor; [assumption|constructor].
    + cbn [trace]. rewrite emitted_frames_app. simpl. rewrite app_nil_r. assumption.
Qed.

(** Every state [main] reaches after some iterations is a loop head. *)
Lemma acquisition_loop_head irqs s :
  loop_head s -> loop_head (acquisition_loop irqs s.1 s.2).
Proof.
  revert s. induction irqs as [|irq rest IH]; intros s Hs.
  - destruct s. exact Hs.
  - simpl. run_monad.
    pose proof (IH _ (head_next irq s Hs)) as H.
    unfold iteration in H. destruct (loop_body irq s.1 s.2). exact H.
Qed.

Lemma main_loop_head uninit irqs b timer0 :
  loop_head (main uninit irqs (boot b timer0)).
Proof.
  pose proof (acquisition_loop_head irqs _ (head_first uninit b timer0)) as H.
  unfold power_on in H. unfold main. run_monad. run_monad_in H.
  destruct (startup (boot b timer0)) as [[] w1].
  destruct (main_init uninit w1). exact H.
Qed.

(** When the three reads succeed the whole payload is rewritten. *)
Lemma stored_frame x y z frame :
  well_framed frame ->
  store_sample 9 z (store_sample 5 y (store_sample 1 x frame))
  = 0xA0 :: sample_bytes x ++ sample_bytes y ++ sample_bytes z ++ [0xC0].
Proof.
  intros (Hlen & Hh & Hf).
  do 15 (destruct frame as [|? frame]; try discriminate).
  simpl in Hh, Hf. injection Hh as ->. injection Hf as ->. reflexivity.
Qed.

(** The gate in a state of the loop: the flags at line 354 are 0 or 1, and
    the iteration is decided by their conjunction. *)
Lemma gate_flags irq s :
  loop_head s ->
  CTRL_Reg_start (gate_state irq s).1 = (if data_ready (status_outcome s) then 1 else 0) /\
  Timer_ISR_start (gate_state irq s).2 = (if irq then 1 else 0) /\
  trace (gate_state irq s).2 =
    trace s.2 ++ [ReadRegister LIS3DH_DEVICE_ADDRESS LIS3DH_STATUS_REG].
Proof.
  intros Hs. destruct (loop_head_invariant s Hs) as [Hr Ht _ _].
  rewrite gate_state_eq. cbn [fst snd CTRL_Reg_start Timer_ISR_start trace].
  rewrite Hr, Ht. repeat split.
Qed.

Lemma iteration_cases irq s :
  loop_head s ->
  iteration irq s =
  if data_ready (status_outcome s) && irq
  then (mkLocals (next_frame s) 0,
        mkWorld (bus s.2) (4 + issued s.2)
          (trace (gate_state irq s).2 ++ block_events (next_frame s)) 0)
  else (mkLocals (OutArrayHR s.1) 0,
        mkWorld (bus s.2) (1 + issued s.2) (trace (gate_state irq s).2) 0).
Proof.
  intros Hs. destruct (gate_flags irq s Hs) as (Hc & Ht & _).
  destruct (loop_head_invariant s Hs) as [_ _ Hf _].
  pose proof (well_framed_next_frame s Hf) as (Hlen & _).
  rewrite iteration_eq. cbv zeta. rewrite Hc, Ht.
  rewrite take_ge by lia.
  destruct (data_ready (status_outcome s)), irq; reflexivity.
Qed.

Lemma not_own_extension {A} (l m : list A) : m <> [] -> l <> l ++ m.
Proof.
  intros Hm E. apply (f_equal length) in E. rewrite length_app in E.
  destruct m; [congruence|simpl in E; lia].
Qed.

(** C3.  In every iteration of the loop, the guarded block (three burst
    reads and the frame) runs if and only if both flags are 1 when line 354 is
    evaluated; otherwise nothing happens after the status read; and at the end
    of the iteration both flags are 0 in either case. *)
Theorem gate_iff_both_flags irq s :
  loop_head s ->
  ((exists frame,
       trace (iteration irq s).2 = trace (gate_state irq s).2 ++ block_events frame)
   <-> (CTRL_Reg_start (gate_state irq s).1 = 1 /\
        Timer_ISR_start (gate_state irq s).2 = 1)) /\
  ((exists frame,
       trace (iteration irq s).2 = trace (gate_state irq s).2 ++ block_events frame)
   \/ trace (iteration irq s).2 = trace (gate_state irq s).2) /\
  CTRL_Reg_start (iteration irq s).1 = 0 /\
  Timer_ISR_start (iteration irq s).2 = 0.
Proof.
  intros Hs. destruct (gate_flags irq s Hs) as (Hc & Ht & _).
  rewrite (iteration_cases irq s Hs), Hc, Ht.
  destruct (data_ready (status_outcome s)), irq; cbn [andb fst snd trace CTRL_Reg_start Timer_ISR_start];
    (split; [split|split; [|done]]);
    try (intros [frame E]; exfalso; revert E; apply not_own_extension; discriminate);
    try (intros [? ?]; discriminate);
    try (intros _; eexists; reflexivity);
    try (intros _; done);
    try (left; eexists; reflexivity);
    try (right; reflexivity).
Qed.

Lemma gate_iff_both_flags_witness :
  let s := scenario_head in
  ((exists frame,
       trace (iteration true s).2 = trace (gate_state true s).2 ++ block_events frame)
   <-> (CTRL_Reg_start (gate_state true s).1 = 1 /\
        Timer_ISR_start (gate_state true s).2 = 1)) /\
  ((exists frame,
       trace (iteration true s).2 = trace (gate_state true s).2 ++ block_events frame)
   \/ trace (iteration true s).2 = trace (gate_state true s).2) /\
  CTRL_Reg_start (iteration true s).1 = 0 /\
  Timer_ISR_start (iteration true s).2 = 0.
Proof. intros s. apply (gate_iff_both_flags true s). apply head_first. Defined.

(** C10.  In an iteration whose status read fails the data-ready flag is 0
    at the gate, and whether or not the timer flag is set the iteration does
    nothing on the bus or the UART beyond the status read: no burst read, no
    frame. *)
Theorem failed_status_read_blocks_sampling irq s :
  loop_head s ->
  (status_outcome s).1 <> NO_ERROR ->
  CTRL_Reg_start (gate_state irq s).1 = 0 /\
  trace (iteration irq s).2 =
    trace s.2 ++ [ReadRegister LIS3DH_DEVICE_ADDRESS LIS3DH_STATUS_REG] /\
  emitted_frames (trace (iteration irq s).2) = emitted_frames (trace s.2).
Proof.
  intros Hs Herr. destruct (gate_flags irq s Hs) as (Hc & _ & Htr).
  assert (data_ready (status_outcome s) = false) as Hnr.
  { unfold data_ready. apply bool_decide_eq_false_2. tauto. }
  rewrite (iteration_cases irq s Hs), Hc, Hnr. cbn [andb fst snd trace].
  rewrite Htr, emitted_frames_app. simpl. rewrite app_nil_r. done.
Qed.

Lemma failed_status_read_blocks_sampling_witness :
  let s := status_fault_head in
  CTRL_Reg_start (gate_state true s).1 = 0 /\
  trace (iteration true s).2 =
    trace s.2 ++ [ReadRegister LIS3DH_DEVICE_ADDRESS LIS3DH_STATUS_REG] /\
  emitted_frames (trace (iteration true s).2) = emitted_frames (trace s.2).
Proof.
  intros s. apply (failed_status_read_blocks_sampling true s).
  - apply head_first.
  - vm_compute. discriminate.
Defined.

(** C4.  Every frame handed to the UART in a run of the firmware has 14
    bytes, the first 0xA0 and the last 0xC0; and an iteration leaves the bytes
    0 and 13 of the array, written once before the loop, and its length as
    they are. *)
Theorem frames_are_well_framed s :
  loop_head s ->
  Forall well_framed (emitted_frames (trace s.2)) /\
  OutArrayHR s.1 !! 0%nat = Some header /\
  OutArrayHR s.1 !! 13%nat = Some footer /\
  (forall irq,
     OutArrayHR (iteration irq s).1 !! 0%nat = OutArrayHR s.1 !! 0%nat /\
     OutArrayHR (iteration irq s).1 !! 13%nat = OutArrayHR s.1 !! 13%nat /\
     length (OutArrayHR (iteration irq s).1) = length (OutArrayHR s.1)).
Proof.
  intros Hs. destruct (loop_head_invariant s Hs) as [_ _ Hf Hsent].
  split; [exact Hsent|].
  destruct Hf as (Hlen & Hh & Hft). split; [exact Hh|]. split; [exact Hft|].
  intros irq.
  destruct (loop_head_invariant _ (head_next irq s Hs)) as [_ _ (Hlen' & Hh' & Hf') _].
  rewrite Hh', Hf', Hlen', Hh, Hft, Hlen. done.
Qed.

Lemma frames_are_well_framed_witness :
  let s := iteration true scenario_head in
  Forall well_framed (emitted_frames (trace s.2)) /\
  OutArrayHR s.1 !! 0%nat = Some header /\
  OutArrayHR s.1 !! 13%nat = Some footer /\
  (forall irq,
     OutArrayHR (iteration irq s).1 !! 0%nat = OutArrayHR s.1 !! 0%nat /\
     OutArrayHR (iteration irq s).1 !! 13%nat = OutArrayHR s.1 !! 13%nat /\
     length (OutArrayHR (iteration irq s).1) = length (OutArrayHR s.1)).
Proof.
  intros s. apply (frames_are_well_framed s). apply head_next, head_first.
Defined.

Lemma axis_update_failed o off frame :
  o.1 <> NO_ERROR -> axis_update o off frame = frame.
Proof. intros H. unfold axis_update. rewrite decide_False by assumption. reflexivity. Qed.

Lemma axis_update_ok o off frame :
  o.1 = NO_ERROR ->
  axis_update o off frame = store_sample off (physical_sample (raw_sample o.2)) frame.
Proof. intros H. unfold axis_update. rewrite decide_True by assumption. reflexivity. Qed.

(** C5.  In an iteration whose gate is open and in which the burst read of
    exactly one axis fails, the four bytes of that axis are those of the
    previous frame, the bytes of the two other axes are computed from the new
    reads, and the 14-byte frame is sent after the three reads. *)
Theorem failed_axis_keeps_previous_bytes irq s a :
  loop_head s ->
  CTRL_Reg_start (gate_state irq s).1 = 1 ->
  Timer_ISR_start (gate_state irq s).2 = 1 ->
  (axis_outcome a s).1 <> NO_ERROR ->
  (forall b, b <> a -> (axis_outcome b s).1 = NO_ERROR) ->
  axis_bytes a (OutArrayHR (iteration irq s).1) = axis_bytes a (OutArrayHR s.1) /\
  (forall b, b <> a ->
     axis_bytes b (OutArrayHR (iteration irq s).1)
     = sample_bytes (physical_sample (raw_sample (axis_outcome b s).2))) /\
  length (OutArrayHR (iteration irq s).1) = 14%nat /\
  trace (iteration irq s).2 =
    trace (gate_state irq s).2 ++ block_events (OutArrayHR (iteration irq s).1).
Proof.
  intros Hs Hc Ht Hfail Hok.
  destruct (gate_flags irq s Hs) as (Hc' & Ht' & _).
  destruct (loop_head_invariant s Hs) as [_ _ Hf _].
  pose proof (well_framed_next_frame s Hf) as (Hlen' & _).
  destruct Hf as (Hlen & _).
  rewrite (iteration_cases irq s Hs).
  destruct (data_ready (status_outcome s)); [|rewrite Hc in Hc'; discriminate].
  destruct irq; [|rewrite Ht in Ht'; discriminate].
  cbn [andb fst snd OutArrayHR trace].
  split; [|split; [|split; [exact Hlen'|reflexivity]]].
  - unfold next_frame, axis_bytes.
    destruct a; cbn [axis_offset];
      repeat first
        [ rewrite (axis_update_failed _ _ _ Hfail)
        | rewrite axis_update_ok by (apply Hok; discriminate)
        | rewrite take_drop_store_sample_ne by lia ];
      reflexivity.
  - intros b Hb. unfold next_frame, axis_bytes.
    destruct a, b; try contradiction; cbn [axis_offset];
      rewrite (axis_update_failed _ _ _ Hfail);
      rewrite !axis_update_ok by (apply Hok; discriminate);
      rewrite ?take_drop_store_sample_ne by lia;
      apply take_drop_store_sample; rewrite ?length_store_sample; lia.
Qed.

Lemma failed_axis_keeps_previous_bytes_witness :
  let s := y_fault_head in
  axis_bytes AxisY (OutArrayHR (iteration true s).1) = axis_bytes AxisY (OutArrayHR s.1) /\
  (forall b, b <> AxisY ->
     axis_bytes b (OutArrayHR (iteration true s).1)
     = sample_bytes (physical_sample (raw_sample (axis_outcome b s).2))) /\
  length (OutArrayHR (iteration true s).1) = 14%nat /\
  trace (iteration true s).2 =
    trace (gate_state true s).2 ++ block_events (OutArrayHR (iteration true s).1).
Proof.
  intros s. apply (failed_axis_keeps_previous_bytes true s AxisY).
  - apply head_first.
  - vm_compute. reflexivity.
  - vm_compute. reflexivity.
  - vm_compute. discriminate.
  - intros b Hb. destruct b; [vm_compute; reflexivity|contradiction|vm_compute; reflexivity].
Defined.

(** C6, as the code has it.  With the status register 0x07, the timer flag
    set and three successful burst reads whose decoded samples are 1024 for X,
    0 for Y (bytes 0x00, 0x00) and -1025 for Z, the frame sent is A0, then
    74 4E 00 00 (20084 = 1024 * 2 * 9.80665 truncated), then 00 00 00 00, then
    79 B1 FF FF (-20103 = -1025 * 2 * 9.80665 truncated), then C0. *)
Theorem scenario_frame irq s dx dz :
  loop_head s ->
  status_outcome s = (NO_ERROR, 0x07) ->
  Timer_ISR_start (gate_state irq s).2 = 1 ->
  axis_outcome AxisX s = (NO_ERROR, dx) -> raw_sample dx = 1024 ->
  axis_outcome AxisY s = (NO_ERROR, (0x00, 0x00)) ->
  axis_outcome AxisZ s = (NO_ERROR, dz) -> raw_sample dz = -1025 ->
  trace (iteration irq s).2 =
    trace (gate_state irq s).2 ++
    block_events [0xA0; 0x74; 0x4E; 0x00; 0x00; 0x00; 0x00; 0x00; 0x00;
                  0x79; 0xB1; 0xFF; 0xFF; 0xC0].
Proof.
  intros Hs Hst Ht Hx Hdx Hy Hz Hdz.
  destruct (gate_flags irq s Hs) as (_ & Ht' & _).
  destruct (loop_head_invariant s Hs) as [_ _ Hf _].
  rewrite (iteration_cases irq s Hs), Hst.
  destruct irq; [|rewrite Ht in Ht'; discriminate].
  change (data_ready (NO_ERROR, 7) && true) with true. cbn [fst snd trace].
  unfold next_frame. rewrite Hx, Hy, Hz.
  rewrite !axis_update_ok by reflexivity. cbn [fst snd].
  rewrite Hdx, Hdz, (stored_frame _ _ _ _ Hf).
  vm_compute sample_bytes. reflexivity.
Qed.

Lemma scenario_frame_witness :
  trace (iteration true exchanged_head).2 =
    trace (gate_state true exchanged_head).2 ++
    block_events [0xA0; 0x74; 0x4E; 0x00; 0x00; 0x00; 0x00; 0x00; 0x00;
                  0x79; 0xB1; 0xFF; 0xFF; 0xC0].
Proof.
  apply (scenario_frame true exchanged_head (0x40, 0x00) (0xBF, 0xF0)).
  - apply head_first.
  - vm_compute. reflexivity.
  - vm_compute. reflexivity.
  - vm_compute. reflexivity.
  - vm_compute. reflexivity.
  - vm_compute. reflexivity.
  - vm_compute. reflexivity.
  - vm_compute. reflexivity.
Defined.

(** C6 as stated fails.  With the registers X = (low 0x00, high 0x40),
    Y = (0x00, 0x00), Z = (low 0xF0, high 0xBF), the status register 0x07 and
    the timer flag set, the frame the code sends is
    A0 4E 00 00 00 00 00 00 00 3B ED FF FF C0, not the frame of the
    specification. *)
Lemma scenario_frame_differs :
  status_outcome scenario_head = (NO_ERROR, 0x07) /\
  axis_outcome AxisX scenario_head = (NO_ERROR, (0x00, 0x40)) /\
  axis_outcome AxisY scenario_head = (NO_ERROR, (0x00, 0x00)) /\
  axis_outcome AxisZ scenario_head = (NO_ERROR, (0xF0, 0xBF)) /\
  Timer_ISR_start (gate_state true scenario_head).2 = 1 /\
  emitted_frames (trace (iteration true scenario_head).2)
  = [[0xA0; 0x4E; 0x00; 0x00; 0x00; 0x00; 0x00; 0x00; 0x00;
      0x3B; 0xED; 0xFF; 0xFF; 0xC0]] /\
  emitted_frames (trace (iteration true scenario_head).2) <> [spec_scenario_frame].
Proof. vm_compute. repeat split; congruence. Qed.

(** ** Start-up configuration *)

Lemma write_count_app r tr1 tr2 :
  write_count r (tr1 ++ tr2) = (write_count r tr1 + write_count r tr2)%nat.
Proof. unfold write_count. rewrite List.filter_app, length_app. reflexivity. Qed.

#[local] Arguments sprintf_02X : simpl never.
#[local] Arguments line : simpl never.

Ltac run_startup_step :=
  unfold I2C_Peripheral_ReadRegister, I2C_Peripheral_WriteRegister,
    UART_Debug_PutString, transact, emit;
  run_monad; simpl;
  repeat match goal with
         | |- context [read_outcome ?b ?k ?d ?r] =>
             destruct (read_outcome b k d r) as [? ?]; simpl
         | |- context [decide ?c] => destruct (decide c); simpl
         end.

(** Control register 1 is written only when the value left by the read
    differs from the desired one. *)
Lemma setup_ctrl_reg1_write_count w :
  write_count LIS3DH_CTRL_REG1 (trace (setup_ctrl_reg1 w).2) =
  (write_count LIS3DH_CTRL_REG1 (trace w) +
   if decide ((read_outcome (bus w) (issued w)
                 LIS3DH_DEVICE_ADDRESS LIS3DH_CTRL_REG1).2 = LIS3DH_100Hz_CTRL_REG1)
   then 0 else 1)%nat.
Proof.
  unfold setup_ctrl_reg1.
  run_startup_step; try contradiction;
    rewrite !write_count_app; cbn;
    rewrite ?bool_decide_eq_true_2 by reflexivity; simpl; lia.
Qed.

(** Control register 4 is written once whatever the read returned. *)
Lemma setup_ctrl_reg4_write_count w :
  write_count LIS3DH_CTRL_REG4 (trace (setup_ctrl_reg4 w).2) =
  S (write_count LIS3DH_CTRL_REG4 (trace w)).
Proof.
  unfold setup_ctrl_reg4.
  run_startup_step; rewrite !write_count_app; cbn;
    rewrite ?bool_decide_eq_true_2 by reflexivity; simpl; lia.
Qed.

(** The lines printed while the temperature configuration and control
    register 4 are set up depend on the reads only: the result of the write
    in between is not looked at. *)
Lemma setup_temp_cfg_reg_ignores_write b1 b2 k tr t :
  same_reads b1 b2 ->
  uart_lines (trace (setup_temp_cfg_reg (mkWorld b1 k tr t)).2) =
  uart_lines (trace (setup_temp_cfg_reg (mkWorld b2 k tr t)).2).
Proof.
  intros Hsame. unfold setup_temp_cfg_reg.
  unfold I2C_Peripheral_ReadRegister, I2C_Peripheral_WriteRegister,
    UART_Debug_PutString, transact, emit.
  run_monad. simpl. rewrite !Hsame.
  repeat match goal with
         | |- context [read_outcome ?b ?i ?d ?r] =>
             destruct (read_outcome b i d r) as [? ?]; simpl; rewrite ?Hsame
         | |- context [decide ?c] => destruct (decide c); simpl; rewrite ?Hsame
         end; reflexivity.
Qed.

Lemma setup_ctrl_reg4_ignores_write b1 b2 k tr t :
  same_reads b1 b2 ->
  uart_lines (trace (setup_ctrl_reg4 (mkWorld b1 k tr t)).2) =
  uart_lines (trace (setup_ctrl_reg4 (mkWorld b2 k tr t)).2).
Proof.
  intros Hsame. unfold setup_ctrl_reg4.
  unfold I2C_Peripheral_ReadRegister, I2C_Peripheral_WriteRegister,
    UART_Debug_PutString, transact, emit.
  run_monad. simpl. rewrite !Hsame.
  repeat match goal with
         | |- context [read_outcome ?b ?i ?d ?r] =>
             destruct (read_outcome b i d r) as [? ?]; simpl; rewrite ?Hsame
         | |- context [decide ?c] => destruct (decide c); simpl; rewrite ?Hsame
         end; reflexivity.
Qed.

(** C7.  On a device whose control registers already hold the desired
    values, the start-up reads control register 4 back as 0x18 (transaction 7)
    and still writes 0x18 to it (transaction 8): one write where the claim
    asks for none; control register 1, read back as 0x57, is not written. *)
Theorem ctrl_reg4_written_when_already_set :
  transactions (trace (startup (boot configured_bus 0)).2) !! 7%nat
    = Some (ReadRegister LIS3DH_DEVICE_ADDRESS LIS3DH_CTRL_REG4) /\
  read_outcome configured_bus 7 LIS3DH_DEVICE_ADDRESS LIS3DH_CTRL_REG4
    = (NO_ERROR, LIS3DH_CTRL_REG4_4G_HIGH) /\
  transactions (trace (startup (boot configured_bus 0)).2) !! 8%nat
    = Some (WriteRegister LIS3DH_DEVICE_ADDRESS LIS3DH_CTRL_REG4 LIS3DH_CTRL_REG4_4G_HIGH) /\
  write_count LIS3DH_CTRL_REG4 (trace (startup (boot configured_bus 0)).2) = 1%nat /\
  read_outcome configured_bus 2 LIS3DH_DEVICE_ADDRESS LIS3DH_CTRL_REG1
    = (NO_ERROR, LIS3DH_100Hz_CTRL_REG1) /\
  write_count LIS3DH_CTRL_REG1 (trace (startup (boot configured_bus 0)).2) = 0%nat.
Proof. vm_compute. repeat split. Qed.

(** C8.  When the write of the temperature configuration register fails
    (transaction 5) the start-up prints exactly the lines of a run without
    fault, none of them an error line: the result of the write is overwritten
    by the result of the next read before it is examined.  A failing write of
    control register 1 is reported. *)
Theorem write_result_overwritten_unexamined :
  transactions (trace (startup (boot temp_write_fault_bus 0)).2) !! 5%nat
    = Some (WriteRegister LIS3DH_DEVICE_ADDRESS LIS3DH_TEMP_CFG_REG
              LIS3DH_TEMP_CFG_REG_NOT_ACTIVE) /\
  write_outcome temp_write_fault_bus 5 LIS3DH_DEVICE_ADDRESS LIS3DH_TEMP_CFG_REG
    LIS3DH_TEMP_CFG_REG_NOT_ACTIVE = NoAckError /\
  uart_lines (trace (startup (boot temp_write_fault_bus 0)).2)
    = uart_lines (trace (startup (boot configured_bus 0)).2) /\
  existsb is_error_line (uart_lines (trace (startup (boot temp_write_fault_bus 0)).2))
    = false /\
  existsb is_error_line (uart_lines (trace (startup (boot ctrl1_write_fault_bus 0)).2))
    = true.
Proof. vm_compute. repeat split. Qed.

(** * Further properties of the start-up *)

Lemma world_eta w tr :
  tr = trace w -> mkWorld (bus w) (issued w) tr (Timer_ISR_start w) = w.
Proof. intros ->. destruct w; reflexivity. Qed.

Lemma for_each_scan_eq indices w :
  for_each indices (fun i =>
    connected ← I2C_Peripheral_IsDeviceConnected i;
    if (connected : bool)
    then UART_Debug_PutString (sprintf_02X "Device 0x" i " is connected")
    else mret tt) w
  = (tt, mkWorld (bus w) (issued w)
           (trace w ++ scan_events (probe (bus w)) indices) (Timer_ISR_start w)).
Proof.
  revert w. induction indices as [|i rest IH]; intros w.
  - simpl. rewrite app_nil_r. run_monad. f_equal. symmetry. apply world_eta. reflexivity.
  - cbn [for_each scan_events flat_map]. run_monad.
    unfold I2C_Peripheral_IsDeviceConnected, UART_Debug_PutString, emit.
    destruct (probe (bus w) (Z.of_nat i)); rewrite IH; cbn [bus issued trace Timer_ISR_start];
      repeat rewrite <- app_assoc; reflexivity.
Qed.

Lemma scan_bus_eq w :
  scan_bus w
  = (tt, mkWorld (bus w) (issued w)
           (trace w ++ scan_events (probe (bus w)) (seq 0 128)) (Timer_ISR_start w)).
Proof. apply for_each_scan_eq. Qed.

Ltac run_closed_form :=
  unfold I2C_Peripheral_ReadRegister, I2C_Peripheral_WriteRegister,
    UART_Debug_PutString, transact, emit, report;
  run_monad; simpl;
  repeat match goal with
         | H : read_outcome ?b ?k ?d ?r = _ |- context [read_outcome ?b ?k ?d ?r] =>
             rewrite H; simpl
         | |- context [read_outcome ?b ?k ?d ?r] =>
             destruct (read_outcome b k d r) as [? ?] eqn:?; simpl
         | |- context [decide ?c] => destruct (decide c); simpl
         end;
  try contradiction;
  repeat rewrite <- app_assoc; try reflexivity.

Lemma read_who_am_i_eq w :
  read_who_am_i w
  = (tt, mkWorld (bus w) (S (issued w))
           (trace w ++ who_am_i_events (bus w) (issued w)) (Timer_ISR_start w)).
Proof. unfold read_who_am_i, who_am_i_events. run_closed_form. Qed.

Lemma read_status_register_eq w :
  read_status_register w
  = (tt, mkWorld (bus w) (S (issued w))
           (trace w ++ status_events (bus w) (issued w)) (Timer_ISR_start w)).
Proof. unfold read_status_register, status_events. run_closed_form. Qed.

Lemma setup_temp_cfg_reg_eq w :
  setup_temp_cfg_reg w
  = (tt, mkWorld (bus w) (3 + issued w)
           (trace w ++ temp_cfg_events (bus w) (issued w)) (Timer_ISR_start w)).
Proof. unfold setup_temp_cfg_reg, temp_cfg_events. run_closed_form. Qed.

Lemma setup_ctrl_reg4_eq w :
  setup_ctrl_reg4 w
  = (tt, mkWorld (bus w) (3 + issued w)
           (trace w ++ ctrl_reg4_events (bus w) (issued w)) (Timer_ISR_start w)).
Proof. unfold setup_ctrl_reg4, ctrl_reg4_events. run_closed_form. Qed.

Lemma setup_ctrl_reg1_eq w :
  setup_ctrl_reg1 w
  = (tt, mkWorld (bus w) (ctrl_reg1_count (bus w) (issued w) + issued w)
           (trace w ++ ctrl_reg1_events (bus w) (issued w)) (Timer_ISR_start w)).
Proof.
  unfold setup_ctrl_reg1, ctrl_reg1_events, ctrl_reg1_count, ctrl_reg1_written.
  destruct (read_outcome (bus w) (issued w) LIS3DH_DEVICE_ADDRESS LIS3DH_CTRL_REG1)
    as [e v] eqn:E.
  cbn [snd].
  destruct (decide (v = LIS3DH_100Hz_CTRL_REG1)) as [Hv|Hv].
  - rewrite bool_decide_eq_true_2 by assumption. cbn [negb].
    unfold I2C_Peripheral_ReadRegister, I2C_Peripheral_WriteRegister,
      UART_Debug_PutString, transact, emit, report.
    run_monad. simpl. rewrite E. simpl.
    rewrite (decide_False (P := v <> _)) by tauto.
    run_closed_form.
  - rewrite bool_decide_eq_false_2 by assumption. cbn [negb].
    unfold I2C_Peripheral_ReadRegister, I2C_Peripheral_WriteRegister,
      UART_Debug_PutString, transact, emit, report.
    run_monad. simpl. rewrite E. simpl.
    rewrite (decide_True (P := v <> _)) by assumption.
    run_closed_form.
Qed.

(** The start-up as a whole: it never stops early, leaves the timer flag
    alone, and adds [startup_events] to the trace. *)
Lemma startup_eq w :
  startup w
  = (tt, mkWorld (bus w) (startup_count (bus w) (issued w) + issued w)
           (trace w ++ startup_events (bus w) (issued w)) (Timer_ISR_start w)).
Proof.
  unfold startup, startup_events, startup_count. run_monad.
  rewrite scan_bus_eq, read_who_am_i_eq, read_status_register_eq, setup_ctrl_reg1_eq,
    setup_temp_cfg_reg_eq, setup_ctrl_reg4_eq.
  cbn [bus issued trace Timer_ISR_start Nat.add].
  repeat rewrite <- app_assoc.
  rewrite !Nat.add_succ_r. reflexivity.
Qed.

Lemma transactions_app tr1 tr2 :
  transactions (tr1 ++ tr2) = transactions tr1 ++ transactions tr2.
Proof. apply List.filter_app. Qed.

Lemma uart_lines_app tr1 tr2 : uart_lines (tr1 ++ tr2) = uart_lines tr1 ++ uart_lines tr2.
Proof. apply omap_app. Qed.

Lemma error_line_count_app tr1 tr2 :
  error_line_count (tr1 ++ tr2) = (error_line_count tr1 + error_line_count tr2)%nat.
Proof.
  unfold error_line_count. rewrite uart_lines_app, List.filter_app, length_app. reflexivity.
Qed.

Lemma probed_addresses_app tr1 tr2 :
  probed_addresses (tr1 ++ tr2) = probed_addresses tr1 ++ probed_addresses tr2.
Proof. apply omap_app. Qed.

Lemma scan_events_cons present i rest :
  scan_events present (i :: rest)
  = (IsDeviceConnected (Z.of_nat i) ::
       (if present (Z.of_nat i)
        then [PutString (sprintf_02X "Device 0x" (Z.of_nat i) " is connected")]
        else [])) ++ scan_events present rest.
Proof. reflexivity. Qed.

Lemma device_line_is_no_error a :
  is_error_line (sprintf_02X "Device 0x" a " is connected") = false.
Proof. reflexivity. Qed.

Lemma scan_events_observed present indices :
  probed_addresses (scan_events present indices) = Z.of_nat <$> indices /\
  uart_lines (scan_events present indices)
    = (fun a => sprintf_02X "Device 0x" a " is connected")
        <$> List.filter present (Z.of_nat <$> indices) /\
  transactions (scan_events present indices) = [] /\
  error_line_count (scan_events present indices) = 0%nat.
Proof.
  induction indices as [|i rest (IH1 & IH2 & IH3 & IH4)]; [done|].
  rewrite scan_events_cons, probed_addresses_app, uart_lines_app, transactions_app,
    error_line_count_app, IH1, IH2, IH3, IH4.
  cbn [fmap list_fmap List.filter].
  destruct (present (Z.of_nat i)); repeat split.
Qed.

(** X1.  The bus scan probes the 128 addresses 0 to 127 once each, in
    ascending order, prints one line for each address found present and no
    other, and issues no register transaction. *)
Theorem bus_scan_observed w :
  probed_addresses (trace (scan_bus w).2)
    = probed_addresses (trace w) ++ (Z.of_nat <$> seq 0 128) /\
  uart_lines (trace (scan_bus w).2)
    = uart_lines (trace w) ++
      ((fun a => sprintf_02X "Device 0x" a " is connected")
         <$> List.filter (probe (bus w)) (Z.of_nat <$> seq 0 128)) /\
  transactions (trace (scan_bus w).2) = transactions (trace w) /\
  issued (scan_bus w).2 = issued w.
Proof.
  rewrite scan_bus_eq. cbn [snd trace issued].
  destruct (scan_events_observed (probe (bus w)) (seq 0 128)) as (H1 & H2 & H3 & _).
  rewrite probed_addresses_app, uart_lines_app, transactions_app, H1, H2, H3, app_nil_r.
  done.
Qed.

(** X2.  The start-up never stops early: whatever the outcomes, it issues
    the same register transactions in the same order, three reads, the write
    of control register 1 exactly when the variable differs from 0x57 after
    the read, and seven more; it issues no burst read, and the transaction
    counter advances by their number. *)
Theorem startup_transactions w :
  transactions (trace (startup w).2)
    = transactions (trace w) ++
      [ ReadRegister LIS3DH_DEVICE_ADDRESS LIS3DH_WHO_AM_I_REG_ADDR;
        ReadRegister LIS3DH_DEVICE_ADDRESS LIS3DH_STATUS_REG;
        ReadRegister LIS3DH_DEVICE_ADDRESS LIS3DH_CTRL_REG1 ] ++
      (if decide ((read_outcome (bus w) (2 + issued w)
                     LIS3DH_DEVICE_ADDRESS LIS3DH_CTRL_REG1).2 = LIS3DH_100Hz_CTRL_REG1)
       then []
       else [WriteRegister LIS3DH_DEVICE_ADDRESS LIS3DH_CTRL_REG1 LIS3DH_100Hz_CTRL_REG1]) ++
      [ ReadRegister LIS3DH_DEVICE_ADDRESS LIS3DH_CTRL_REG1;
        ReadRegister LIS3DH_DEVICE_ADDRESS LIS3DH_TEMP_CFG_REG;
        WriteRegister LIS3DH_DEVICE_ADDRESS LIS3DH_TEMP_CFG_REG LIS3DH_TEMP_CFG_REG_NOT_ACTIVE;
        ReadRegister LIS3DH_DEVICE_ADDRESS LIS3DH_TEMP_CFG_REG;
        ReadRegister LIS3DH_DEVICE_ADDRESS LIS3DH_CTRL_REG4;
        WriteRegister LIS3DH_DEVICE_ADDRESS LIS3DH_CTRL_REG4 LIS3DH_CTRL_REG4_4G_HIGH;
        ReadRegister LIS3DH_DEVICE_ADDRESS LIS3DH_CTRL_REG4 ] /\
  (issued (startup w).2 + length (transactions (trace w))
   = issued w + length (transactions (trace (startup w).2)))%nat.
Proof.
  rewrite startup_eq. cbn [snd trace issued].
  unfold startup_events, startup_count, ctrl_reg1_events, ctrl_reg1_count, ctrl_reg1_written.
  destruct (scan_events_observed (probe (bus w)) (seq 0 128)) as (_ & _ & H3 & _).
  rewrite !transactions_app, H3.
  destruct (decide (_ = LIS3DH_100Hz_CTRL_REG1)) as [Hv|Hv].
  - rewrite bool_decide_eq_true_2 by exact Hv. cbn. rewrite !length_app. cbn. split; [reflexivity|lia].
  - rewrite bool_decide_eq_false_2 by exact Hv. cbn. rewrite !length_app. cbn. split; [reflexivity|lia].
Qed.

Ltac count_error_lines :=
  unfold report, failed; cbn [fst snd];
  repeat match goal with
         | |- context [decide ?c] => destruct (decide c)
         end;
  reflexivity.

Lemma error_count_who_am_i b k :
  error_line_count (who_am_i_events b k)
  = failed (read_outcome b k LIS3DH_DEVICE_ADDRESS LIS3DH_WHO_AM_I_REG_ADDR).1.
Proof. unfold who_am_i_events. count_error_lines. Qed.

Lemma error_count_status b k :
  error_line_count (status_events b k)
  = failed (read_outcome b k LIS3DH_DEVICE_ADDRESS LIS3DH_STATUS_REG).1.
Proof. unfold status_events. count_error_lines. Qed.

Lemma error_count_ctrl_reg1 b k :
  error_line_count (ctrl_reg1_events b k)
  = (failed (read_outcome b k LIS3DH_DEVICE_ADDRESS LIS3DH_CTRL_REG1).1 +
     (if ctrl_reg1_written b k
      then failed (write_outcome b (S k) LIS3DH_DEVICE_ADDRESS LIS3DH_CTRL_REG1
                     LIS3DH_100Hz_CTRL_REG1)
      else 0) +
     failed (read_outcome b (ctrl_reg1_count b k - 1 + k)
               LIS3DH_DEVICE_ADDRESS LIS3DH_CTRL_REG1).1)%nat.
Proof.
  unfold ctrl_reg1_events, ctrl_reg1_count.
  destruct (ctrl_reg1_written b k); count_error_lines.
Qed.

Lemma error_count_temp_cfg b k :
  error_line_count (temp_cfg_events b k)
  = (failed (read_outcome b k LIS3DH_DEVICE_ADDRESS LIS3DH_TEMP_CFG_REG).1 +
     failed (read_outcome b (2 + k) LIS3DH_DEVICE_ADDRESS LIS3DH_TEMP_CFG_REG).1)%nat.
Proof. unfold temp_cfg_events. count_error_lines. Qed.

Lemma error_count_ctrl_reg4 b k :
  error_line_count (ctrl_reg4_events b k)
  = (failed (read_outcome b k LIS3DH_DEVICE_ADDRESS LIS3DH_CTRL_REG4).1 +
     failed (read_outcome b (2 + k) LIS3DH_DEVICE_ADDRESS LIS3DH_CTRL_REG4).1)%nat.
Proof. unfold ctrl_reg4_events. count_error_lines. Qed.

(** X3.  The number of error lines the start-up prints is the number of
    failures among its eight reads and the write of control register 1 (when
    that write is issued): each of these is reported by one line, and no
    other failure is. *)
Theorem startup_error_lines w :
  error_line_count (trace (startup w).2)
  = (error_line_count (trace w) + examined_failures (bus w) (issued w))%nat.
Proof.
  rewrite startup_eq. cbn [snd trace].
  unfold startup_events, examined_failures.
  destruct (scan_events_observed (probe (bus w)) (seq 0 128)) as (_ & _ & _ & H4).
  rewrite !error_line_count_app, H4, error_count_who_am_i, error_count_status,
    error_count_ctrl_reg1, error_count_temp_cfg, error_count_ctrl_reg4.
  unfold ctrl_reg1_count.
  destruct (ctrl_reg1_written (bus w) (2 + issued w)); cbn [Nat.add Nat.sub]; lia.
Qed.

(** * Further properties of the acquisition loop *)

Lemma acquisition_loop_invariant (P : Locals * World -> Prop) :
  (forall irq s, P s -> P (iteration irq s)) ->
  forall irqs s, P s -> P (acquisition_loop irqs s.1 s.2).
Proof.
  intros Hstep irqs. induction irqs as [|irq rest IH]; intros s Hs.
  - destruct s. exact Hs.
  - simpl. run_monad.
    pose proof (IH _ (Hstep irq s Hs)) as H.
    unfold iteration in H. destruct (loop_body irq s.1 s.2). exact H.
Qed.

Lemma main_as_loop uninit irqs b timer0 :
  main uninit irqs (boot b timer0)
  = acquisition_loop irqs (power_on uninit b timer0).1 (power_on uninit b timer0).2.
Proof.
  unfold main, power_on. run_monad.
  destruct (startup (boot b timer0)) as [[] w1].
  destruct (main_init uninit w1). reflexivity.
Qed.

(** The state in which the loop begins, in closed form. *)
Lemma power_on_closed uninit b timer0 :
  power_on uninit b timer0
  = (mkLocals (initial_frame uninit) 0,
     mkWorld b (startup_count b 0 + 0) (startup_events b 0) 0).
Proof.
  unfold power_on. run_monad. rewrite startup_eq.
  unfold main_init, set_Timer_ISR_start, boot. run_monad. reflexivity.
Qed.

Lemma iteration_trace irq s :
  exists evs,
    trace (iteration irq s).2 = trace s.2 ++ evs /\ Forall loop_event evs /\
    bus (iteration irq s).2 = bus s.2.
Proof.
  rewrite iteration_eq. cbv zeta. rewrite gate_state_eq. cbn [fst snd trace].
  destruct (decide (Z.land _ _ <> 0)); cbn [snd trace bus].
  - eexists. rewrite <- app_assoc. split; [reflexivity|]. split; [|reflexivity].
    unfold block_events. simpl.
    repeat (apply List.Forall_cons; [simpl; auto 10|]). apply List.Forall_nil.
  - eexists. split; [reflexivity|]. split; [|reflexivity].
    repeat (apply List.Forall_cons; [simpl; auto 10|]). apply List.Forall_nil.
Qed.

Lemma loop_event_no_write r evs :
  Forall loop_event evs -> write_count r evs = 0%nat.
Proof.
  induction 1 as [|e evs He _ IH]; [reflexivity|].
  destruct e; simpl in He; try contradiction; exact IH.
Qed.

(** X4.  Whatever the bus does and however many iterations run, everything
    [main] does after the start-up is a read of the status register, a 2-byte
    burst read of one of the three axes, or the sending of a frame: the loop
    never writes a register, so every register write of a run is one of the
    start-up. *)
Theorem loop_never_writes uninit irqs b timer0 :
  exists evs,
    trace (main uninit irqs (boot b timer0)).2
      = trace (startup (boot b timer0)).2 ++ evs /\
    Forall loop_event evs /\
    forall r,
      write_count r (trace (main uninit irqs (boot b timer0)).2)
      = write_count r (trace (startup (boot b timer0)).2).
Proof.
  rewrite main_as_loop.
  assert (trace (startup (boot b timer0)).2 = trace (power_on uninit b timer0).2) as ->.
  { rewrite power_on_closed, startup_eq. reflexivity. }
  set (s0 := power_on uninit b timer0).
  pose proof (acquisition_loop_invariant
                (fun s => exists evs, trace s.2 = trace s0.2 ++ evs /\ Forall loop_event evs))
    as Hinv.
  destruct (Hinv) with (irqs := irqs) (s := s0) as (evs & E & F).
  - intros irq s (evs & E & F).
    destruct (iteration_trace irq s) as (evs' & E' & F' & _).
    exists (evs ++ evs'). rewrite E', E, app_assoc. split; [reflexivity|].
    apply Forall_app; split; assumption.
  - exists []. rewrite app_nil_r. split; [reflexivity|constructor].
  - exists evs. split; [exact E|]. split; [exact F|].
    intros r. rewrite E, write_count_app, (loop_event_no_write r evs F). lia.
Qed.

Lemma land_7_mod_8 d : Z.land d 7 = 7 <-> d mod 8 = 7.
Proof. change 7 with (Z.ones 3) at 1. rewrite Z.land_ones by lia. reflexivity. Qed.

(** X5.  An iteration sends exactly one frame when its status read succeeds
    with the three low bits of the status set (the other bits are ignored) and
    the timer interrupt has fired since the last iteration; otherwise it sends
    none.  The frame is the array after the three burst reads. *)
Theorem frame_sent_iff irq s :
  loop_head s ->
  emitted_frames (trace (iteration irq s).2)
  = emitted_frames (trace s.2) ++
    (if decide ((status_outcome s).1 = NO_ERROR /\ (status_outcome s).2 mod 8 = 7 /\
                irq = true)
     then [next_frame s] else []).
Proof.
  intros Hs. destruct (gate_flags irq s Hs) as (_ & _ & Htr).
  rewrite (iteration_cases irq s Hs).
  assert (data_ready (status_outcome s) && irq = true
          <-> (status_outcome s).1 = NO_ERROR /\ (status_outcome s).2 mod 8 = 7 /\
              irq = true) as Hiff.
  { unfold data_ready. rewrite andb_true_iff, bool_decide_eq_true.
    change LIS3DH_STATUS_REG_NEW_VALUES with 7. rewrite land_7_mod_8. tauto. }
  destruct (data_ready (status_outcome s) && irq) eqn:E.
  - rewrite decide_True by (apply Hiff; reflexivity).
    cbn [snd trace]. rewrite Htr, !emitted_frames_app. simpl. rewrite app_nil_r. reflexivity.
  - rewrite decide_False by (rewrite <- Hiff; congruence).
    cbn [snd trace]. rewrite Htr, !emitted_frames_app. simpl. rewrite !app_nil_r. reflexivity.
Qed.

Lemma frame_sent_iff_witness :
  emitted_frames (trace (iteration true scenario_head).2)
  = emitted_frames (trace scenario_head.2) ++
    (if decide ((status_outcome scenario_head).1 = NO_ERROR /\
                (status_outcome scenario_head).2 mod 8 = 7 /\ true = true)
     then [next_frame scenario_head] else []).
Proof. apply (frame_sent_iff true scenario_head). apply head_first. Defined.

(** X6.  A timer tick that finds the data not ready is discarded, not
    deferred: when the status read of an iteration does not show new data, the
    next iteration sends no frame unless the timer fires again, whatever its
    own status read returns. *)
Theorem tick_without_data_is_lost s :
  loop_head s ->
  data_ready (status_outcome s) = false ->
  emitted_frames (trace (iteration false (iteration true s)).2)
  = emitted_frames (trace s.2).
Proof.
  intros Hs Hnr.
  pose proof (head_next true s Hs) as Hs1.
  destruct (gate_flags false _ Hs1) as (_ & _ & Htr1).
  destruct (gate_flags true s Hs) as (_ & _ & Htr).
  rewrite (iteration_cases false _ Hs1), andb_false_r. cbn [snd trace].
  rewrite Htr1, (iteration_cases true s Hs), Hnr. cbn [andb snd trace].
  rewrite Htr, !emitted_frames_app. simpl. rewrite !app_nil_r. reflexivity.
Qed.

Lemma tick_without_data_is_lost_witness :
  emitted_frames
    (trace (iteration false (iteration true (power_on (fun _ => 0) configured_bus 0))).2)
  = emitted_frames (trace (power_on (fun _ => 0) configured_bus 0).2).
Proof.
  apply tick_without_data_is_lost.
  - apply head_first.
  - vm_compute. reflexivity.
Defined.

Lemma last_frame_in_array s f :
  loop_head s ->
  last (emitted_frames (trace s.2)) = Some f ->
  OutArrayHR s.1 = f.
Proof.
  intros Hs. revert f.
  induction Hs as [uninit b timer0|irq s Hs IH]; intros f Hlast.
  - destruct (power_on_eq uninit b timer0) as (evs & F & _ & Et & _).
    rewrite Et, emitted_frames_none in Hlast by assumption. discriminate.
  - destruct (gate_flags irq s Hs) as (_ & _ & Htr).
    rewrite (iteration_cases irq s Hs) in *.
    destruct (data_ready (status_outcome s) && irq); cbn [fst snd trace OutArrayHR] in *;
      rewrite Htr, !emitted_frames_app in Hlast; simpl in Hlast.
    + rewrite app_nil_r, last_snoc in Hlast. congruence.
    + rewrite !app_nil_r in Hlast. apply IH, Hlast.
Qed.



Lemma next_frame_all_failed s :
  (forall a, (axis_outcome a s).1 <> NO_ERROR) -> next_frame s = OutArrayHR s.1.
Proof.
  intros Hfail. unfold next_frame.
  rewrite !axis_update_failed by apply Hfail. reflexivity.
Qed.

(** X8.  When the gate is open and the three burst reads fail, the frame
    sent before is sent again unchanged: stale values go out under a fresh
    frame. *)
Theorem failed_reads_resend_last_frame s f :
  loop_head s ->
  data_ready (status_outcome s) = true ->
  (forall a, (axis_outcome a s).1 <> NO_ERROR) ->
  last (emitted_frames (trace s.2)) = Some f ->
  emitted_frames (trace (iteration true s).2) = emitted_frames (trace s.2) ++ [f].
Proof.
  intros Hs Hr Hfail Hlast.
  destruct (gate_flags true s Hs) as (_ & _ & Htr).
  rewrite (iteration_cases true s Hs), Hr. cbn [andb snd trace].
  rewrite Htr, !emitted_frames_app, (next_frame_all_failed s Hfail). simpl.
  rewrite app_nil_r. do 2 f_equal.
  apply last_frame_in_array; assumption.
Qed.

Lemma failed_reads_resend_last_frame_witness :
  emitted_frames
    (trace (iteration true (iteration true
       (power_on (fun _ => 0) second_reads_fail_bus 0))).2)
  = emitted_frames
      (trace (iteration true (power_on (fun _ => 0) second_reads_fail_bus 0)).2) ++
    [[0xA0; 0x4E; 0x00; 0x00; 0x00; 0x00; 0x00; 0x00; 0x00; 0x3B; 0xED; 0xFF; 0xFF; 0xC0]].
Proof.
  apply failed_reads_resend_last_frame.
  - apply head_next, head_first.
  - vm_compute. reflexivity.
  - intros a. destruct a; vm_compute; discriminate.
  - vm_compute. reflexivity.
Defined.

(** X9.  When the gate is open for the first time and the three burst
    reads fail, the frame sent is the array as it was declared: the header,
    the twelve bytes the array happened to hold, which the program never
    initialises, and the footer. *)
Theorem first_frame_may_be_uninitialised uninit b timer0 :
  data_ready (status_outcome (power_on uninit b timer0)) = true ->
  (forall a, (axis_outcome a (power_on uninit b timer0)).1 <> NO_ERROR) ->
  emitted_frames (trace (iteration true (power_on uninit b timer0)).2)
  = [ 0xA0 :: ((fun i => uninit i mod 256) <$> seq 1 12) ++ [0xC0] ].
Proof.
  intros Hr Hfail.
  pose proof (head_first uninit b timer0) as Hs.
  destruct (gate_flags true _ Hs) as (_ & _ & Htr).
  destruct (power_on_eq uninit b timer0) as (evs & F & _ & Et & _).
  rewrite (iteration_cases true _ Hs), Hr. cbn [andb snd trace].
  rewrite Htr, !emitted_frames_app, (next_frame_all_failed _ Hfail), Et,
    (emitted_frames_none evs F).
  rewrite power_on_closed. reflexivity.
Qed.

Lemma first_frame_may_be_uninitialised_witness :
  emitted_frames (trace (iteration true (power_on stack_garbage first_reads_fail_bus 0)).2)
  = [ 0xA0 :: ((fun i => stack_garbage i mod 256) <$> seq 1 12) ++ [0xC0] ].
Proof.
  apply first_frame_may_be_uninitialised.
  - vm_compute. reflexivity.
  - intros a. destruct a; vm_compute; discriminate.
Defined.

(** ** The conversion over its whole range *)

Lemma checked_on_range (P : Z -> bool) r :
  forallb P sample_range = true -> -2048 <= r <= 2047 -> P r = true.
Proof.
  intros Hall Hr. rewrite forallb_forall in Hall.
  apply Hall, list_elem_of_In, in_sample_range, Hr.
Qed.

Lemma physical_in_bounds_checked : forallb physical_in_bounds sample_range = true.
Proof. vm_compute. reflexivity. Qed.

Lemma physical_step_checked : forallb physical_step_ok sample_range = true.
Proof. vm_compute. reflexivity. Qed.

Lemma physical_odd_checked : forallb physical_odd_ok sample_range = true.
Proof. vm_compute. reflexivity. Qed.

Lemma physical_sample_bounds r :
  -2048 <= r <= 2047 -> -40168 <= physical_sample r <= 40148.
Proof.
  intros Hr. pose proof (checked_on_range _ r physical_in_bounds_checked Hr) as H.
  unfold physical_in_bounds in H. lia.
Qed.

(** X10.  Whatever two values a burst read leaves in the buffer, the decoded
    sample lies in -2048..2047, its product with the sensitivity does not
    overflow the 16-bit variable, and the converted value lies in
    -40168..40148, well inside the 32-bit variable. *)
Theorem conversion_never_overflows (AccelerometerData : Z * Z) :
  -2048 <= raw_sample AccelerometerData <= 2047 /\
  to_int16 (raw_sample AccelerometerData * LIS3DH_SENS_4G)
    = raw_sample AccelerometerData * LIS3DH_SENS_4G /\
  -40168 <= physical_sample (raw_sample AccelerometerData) <= 40148 /\
  is_int32 (physical_sample (raw_sample AccelerometerData)).
Proof.
  pose proof (raw_sample_range AccelerometerData) as Hr.
  pose proof (physical_sample_bounds _ Hr) as Hp.
  split; [exact Hr|]. split; [|split; [exact Hp|unfold is_int32; lia]].
  apply to_int16_id. unfold LIS3DH_SENS_4G. lia.
Qed.

Lemma physical_sample_steps (n : nat) r :
  -2048 <= r -> r + Z.of_nat n <= 2047 ->
  19 * Z.of_nat n <= physical_sample (r + Z.of_nat n) - physical_sample r <= 20 * Z.of_nat n.
Proof.
  induction n as [|n IH]; intros Hlo Hhi.
  - rewrite Z.add_0_r. lia.
  - specialize (IH Hlo ltac:(lia)).
    pose proof (checked_on_range _ (r + Z.of_nat n) physical_step_checked ltac:(lia)) as H.
    unfold physical_step_ok in H.
    replace (r + Z.of_nat (S n)) with (r + Z.of_nat n + 1) by lia.
    apply orb_true_iff in H as [H|H]; [lia|]. lia.
Qed.

(** X11.  Over the range of a decoded sample the conversion is strictly
    increasing, by 19 or 20 mm/s^2 per digit, and odd: opposite samples give
    opposite values. *)
Theorem conversion_monotone_and_odd r1 r2 :
  -2048 <= r1 -> r1 <= r2 -> r2 <= 2047 ->
  19 * (r2 - r1) <= physical_sample r2 - physical_sample r1 <= 20 * (r2 - r1) /\
  (-2048 < r1 -> physical_sample (- r1) = - physical_sample r1).
Proof.
  intros Hlo Hle Hhi. split.
  - pose proof (physical_sample_steps (Z.to_nat (r2 - r1)) r1 Hlo ltac:(lia)) as H.
    rewrite Z2Nat.id in H by lia. replace (r1 + (r2 - r1)) with r2 in H by lia. exact H.
  - intros Hr1.
    pose proof (checked_on_range _ r1 physical_odd_checked ltac:(lia)) as H.
    unfold physical_odd_ok in H. lia.
Qed.

Lemma conversion_monotone_and_odd_witness :
  19 * (1024 - -1025) <= physical_sample 1024 - physical_sample (-1025) <= 20 * (1024 - -1025) /\
  (-2048 < -1025 -> physical_sample (- -1025) = - physical_sample (-1025)).
Proof. apply conversion_monotone_and_odd; lia. Defined.

Lemma unpack_three_samples x y z frame :
  is_int32 x -> is_int32 y -> is_int32 z -> length frame = 14%nat ->
  spec_unpack_frame (store_sample 9 z (store_sample 5 y (store_sample 1 x frame)))
  = (x, y, z).
Proof.
  intros Hx Hy Hz Hlen. unfold spec_unpack_frame.
  rewrite (unpack_store_sample 9) by (rewrite ?length_store_sample; done || lia).
  rewrite !(unpack_store_sample_ne 1 9), !(unpack_store_sample_ne 5 9) by lia.
  rewrite (unpack_store_sample 5) by (rewrite ?length_store_sample; done || lia).
  rewrite !(unpack_store_sample_ne 1 5) by lia.
  rewrite (unpack_store_sample 1) by (done || lia).
  reflexivity.
Qed.

(** X12.  When the gate is open and the three burst reads succeed, the
    frame sent holds nothing of the previous one: it is the header, the twelve
    bytes computed from the three reads of this iteration and the footer, and
    reading it back as three little-endian signed 32-bit fields gives exactly
    the three converted values. *)
Theorem fresh_frame_decodes s :
  loop_head s ->
  data_ready (status_outcome s) = true ->
  (forall a, (axis_outcome a s).1 = NO_ERROR) ->
  exists frame,
    emitted_frames (trace (iteration true s).2) = emitted_frames (trace s.2) ++ [frame] /\
    frame =
      0xA0 :: sample_bytes (physical_sample (raw_sample (axis_outcome AxisX s).2))
           ++ sample_bytes (physical_sample (raw_sample (axis_outcome AxisY s).2))
           ++ sample_bytes (physical_sample (raw_sample (axis_outcome AxisZ s).2))
           ++ [0xC0] /\
    spec_unpack_frame frame =
      (physical_sample (raw_sample (axis_outcome AxisX s).2),
       physical_sample (raw_sample (axis_outcome AxisY s).2),
       physical_sample (raw_sample (axis_outcome AxisZ s).2)).
Proof.
  intros Hs Hr Hok.
  destruct (gate_flags true s Hs) as (_ & _ & Htr).
  destruct (loop_head_invariant s Hs) as [_ _ Hf _].
  assert (forall d, is_int32 (physical_sample (raw_sample d))) as Hint.
  { intros d. pose proof (physical_sample_bounds _ (raw_sample_range d)).
    unfold is_int32. lia. }
  exists (next_frame s). split; [|split].
  - rewrite (iteration_cases true s Hs), Hr. cbn [andb snd trace].
    rewrite Htr, !emitted_frames_app. simpl. rewrite app_nil_r. reflexivity.
  - unfold next_frame. rewrite !axis_update_ok by apply Hok.
    apply stored_frame, Hf.
  - unfold next_frame. rewrite !axis_update_ok by apply Hok.
    apply unpack_three_samples; try apply Hint. apply Hf.
Qed.

Lemma fresh_frame_decodes_witness :
  exists frame,
    emitted_frames (trace (iteration true scenario_head).2)
      = emitted_frames (trace scenario_head.2) ++ [frame] /\
    frame =
      0xA0 :: sample_bytes (physical_sample (raw_sample (axis_outcome AxisX scenario_head).2))
           ++ sample_bytes (physical_sample (raw_sample (axis_outcome AxisY scenario_head).2))
           ++ sample_bytes (physical_sample (raw_sample (axis_outcome AxisZ scenario_head).2))
           ++ [0xC0] /\
    spec_unpack_frame frame =
      (physical_sample (raw_sample (axis_outcome AxisX scenario_head).2),
       physical_sample (raw_sample (axis_outcome AxisY scenario_head).2),
       physical_sample (raw_sample (axis_outcome AxisZ scenario_head).2)).
Proof.
  apply fresh_frame_decodes.
  - apply head_first.
  - vm_compute. reflexivity.
  - intros a. destruct a; vm_compute; reflexivity.
Defined.

(** X13.  On a bus whose status read never shows new data on the three axes
    (the device is absent, the read fails, or the bits are never all set), no
    run ever sends a frame or issues a burst read, however often the timer
    fires: the loop only repeats the status read. *)
Theorem never_ready_never_sends uninit irqs b timer0 :
  (forall k, data_ready (read_outcome b k LIS3DH_DEVICE_ADDRESS LIS3DH_STATUS_REG) = false) ->
  emitted_frames (trace (main uninit irqs (boot b timer0)).2) = [] /\
  trace (main uninit irqs (boot b timer0)).2
  = trace (startup (boot b timer0)).2 ++
    replicate (length irqs) (ReadRegister LIS3DH_DEVICE_ADDRESS LIS3DH_STATUS_REG).
Proof.
  intros Hnever. rewrite main_as_loop.
  assert (trace (startup (boot b timer0)).2 = trace (power_on uninit b timer0).2) as ->.
  { rewrite power_on_closed, startup_eq. reflexivity. }
  assert (forall irqs s,
            loop_head s -> bus s.2 = b ->
            trace (acquisition_loop irqs s.1 s.2).2
            = trace s.2 ++
              replicate (length irqs) (ReadRegister LIS3DH_DEVICE_ADDRESS LIS3DH_STATUS_REG))
    as Hloop.
  { clear irqs. intros irqs. induction irqs as [|irq rest IH]; intros s Hs Hb.
    - simpl. rewrite app_nil_r. reflexivity.
    - simpl. run_monad.
      destruct (gate_flags irq s Hs) as (_ & _ & Htr).
      pose proof (iteration_cases irq s Hs) as Hit.
      unfold status_outcome in Hit. rewrite Hb, Hnever in Hit. cbn [andb] in Hit.
      pose proof (head_next irq s Hs) as Hn.
      unfold iteration in Hit, Hn. rewrite Hit in Hn. rewrite Hit.
      pose proof (IH _ Hn eq_refl) as H. cbn [fst snd trace] in H.
      rewrite H, Htr, <- app_assoc. reflexivity. }
  assert (bus (power_on uninit b timer0).2 = b) as Hb
    by (rewrite power_on_closed; reflexivity).
  pose proof (Hloop irqs _ (head_first uninit b timer0) Hb) as H.
  split; [|exact H].
  rewrite H, emitted_frames_app.
  destruct (power_on_eq uninit b timer0) as (evs & F & _ & Et & _).
  rewrite Et, (emitted_frames_none evs F). simpl.
  apply emitted_frames_none. apply Forall_replicate. exact I.
Qed.

Lemma never_ready_never_sends_witness :
  emitted_frames (trace (main (fun _ => 0) [true; true; false] (boot configured_bus 0)).2) = [] /\
  trace (main (fun _ => 0) [true; true; false] (boot configured_bus 0)).2
  = trace (startup (boot configured_bus 0)).2 ++
    replicate (length [true; true; false])
      (ReadRegister LIS3DH_DEVICE_ADDRESS LIS3DH_STATUS_REG).
Proof.
  apply never_ready_never_sends. intros k. vm_compute. reflexivity.
Defined.

Lemma frames_bounded_by_ticks irqs s :
  loop_head s ->
  (length (emitted_frames (trace (acquisition_loop irqs s.1 s.2).2))
   <= length (emitted_frames (trace s.2)) + length (List.filter (fun i => i) irqs))%nat.
Proof.
  revert s. induction irqs as [|irq rest IH]; intros s Hs.
  - simpl. lia.
  - simpl. run_monad.
    pose proof (IH _ (head_next irq s Hs)) as H.
    destruct (gate_flags irq s Hs) as (_ & _ & Htr).
    assert (length (emitted_frames (trace (iteration irq s).2))
            <= length (emitted_frames (trace s.2)) + if irq then 1 else 0)%nat as Hstep.
    { rewrite (iteration_cases irq s Hs).
      destruct (data_ready (status_outcome s)), irq; cbn [andb snd trace];
        rewrite Htr, !emitted_frames_app, !length_app; simpl; lia. }
    unfold iteration in *. destruct (loop_body irq s.1 s.2) as [l' w'].
    cbn [fst snd] in *. destruct irq; simpl; lia.
Qed.

(** X14.  In every run the number of frames sent is at most the number of
    iterations before which the timer interrupt fired: the output rate never
    exceeds the timer rate, however fast the sensor produces data. *)
Theorem frames_at_most_ticks uninit irqs b timer0 :
  (length (emitted_frames (trace (main uninit irqs (boot b timer0)).2))
   <= length (List.filter (fun i => i) irqs))%nat.
Proof.
  rewrite main_as_loop.
  pose proof (frames_bounded_by_ticks irqs _ (head_first uninit b timer0)) as H.
  destruct (power_on_eq uninit b timer0) as (evs & F & _ & Et & _).
  rewrite Et, (emitted_frames_none evs F) in H. exact H.
Qed.

Lemma upper_bytes_checked : forallb upper_bytes_ok sample_range = true.
Proof. vm_compute. reflexivity. Qed.

(** X15.  In the four bytes written for an axis the two upper ones carry the
    sign only: they are 00 00 when the converted value is not negative and
    FF FF when it is, whatever the burst read returned. *)
Theorem upper_bytes_are_sign (AccelerometerData : Z * Z) :
  drop 2 (sample_bytes (physical_sample (raw_sample AccelerometerData)))
  = if decide (physical_sample (raw_sample AccelerometerData) < 0)
    then [0xFF; 0xFF] else [0x00; 0x00].
Proof.
  pose proof (checked_on_range _ _ upper_bytes_checked (raw_sample_range AccelerometerData))
    as H.
  unfold upper_bytes_ok in H. cbv zeta in H.
  destruct (Z.ltb_spec (physical_sample (raw_sample AccelerometerData)) 0) as [Hneg|Hpos].
  - rewrite decide_True by assumption. apply bool_decide_eq_true in H. exact H.
  - rewrite decide_False by lia. apply bool_decide_eq_true in H. exact H.
Qed.
